(** * ha-nadtcp: the NAD amplifier media-player platform of Home Assistant

    A shallow embedding of the two platform files of the repository,

      - [components/nadtcp2/media_player.py]  (module [ClientPlatform]):
        the handler that drives a [NADReceiverTCPC338] client object;
      - [components/media_player/nadtcp2.py]  (module [ProtocolPlatform]):
        the handler that drives an [NADC338Protocol] connection itself,

    followed by the properties of the specification that are settled on
    them.

    Conventions of the embedding.

      - Python numbers (int and float) are exact rationals [Q]; an [int]
        configuration value is a [Z].  Equality of computed numbers is
        therefore stated with [==] ([Qeq]).
      - A Python object whose type the handler does not fix is a [pyval].
      - A method is a computation in the monad [M]: it reads and writes
        the handler object, emits the calls it makes on its collaborators
        (client, protocol, Home Assistant) as a list of effects, and
        either returns or raises.
      - The [nadtcp] client library and Home Assistant are collaborators:
        what they answer to a call is an argument of the method. *)

From Stdlib Require Import ZArith QArith Qround Qabs Lia Lqa.
From stdpp Require Import base option list strings gmap.

Local Open Scope Z_scope.

(** ** Python values, exceptions and results *)

Module Py.

(** The builtin exception classes that the handlers can meet. *)
Inductive exn : Type :=
| TypeError
| ZeroDivisionError
| AttributeError
| ValueError
| OSError
| ConnectionRefusedError
| TimeoutError
| AsyncioTimeoutError.

Inductive result (A : Type) : Type :=
| Ok (a : A)
| Raise (e : exn).
Arguments Ok {A} a.
Arguments Raise {A} e.

(** A dynamically typed value: [None], a [bool], a number or a [str]. *)
Inductive pyval : Type :=
| PyNone
| PyBool (b : bool)
| PyNum (q : Q)
| PyStr (s : string).

Definition PyInt (z : Z) : pyval := PyNum (inject_Z z).

(** Truth value testing, as [if v:] does it. *)
Definition truthy (v : pyval) : bool :=
  match v with
  | PyNone => false
  | PyBool b => b
  | PyNum q => negb (Qeq_bool q 0)
  | PyStr s => negb (String.eqb s "")
  end.

(** The operand of an arithmetic operator or of an ordering comparison
    with an [int]: a [bool] counts as 0 or 1, [None] and [str] raise
    [TypeError]. *)
Definition as_number (v : pyval) : result Q :=
  match v with
  | PyNum q => Ok q
  | PyBool b => Ok (if b then 1%Q else 0%Q)
  | PyNone | PyStr _ => Raise TypeError
  end.

Definition Qltb (x y : Q) : bool := negb (Qle_bool y x).

(** [round(x)] with one argument: the nearest integer, a tie going to
    the even neighbour. *)
Definition round (x : Q) : Z :=
  let f := Qfloor x in
  match (x - inject_Z f ?= 1 # 2)%Q with
  | Lt => f
  | Gt => f + 1
  | Eq => if Z.even f then f else f + 1
  end.

(** [a == b] on values: numbers (and bools) by value, strings by
    content, [None] only equal to itself. *)
Definition py_eq (a b : pyval) : bool :=
  match a, b with
  | PyNone, PyNone => true
  | PyStr s, PyStr t => String.eqb s t
  | _, _ =>
      match as_number a, as_number b with
      | Ok x, Ok y => Qeq_bool x y
      | _, _ => false
      end
  end.

(** [a / b] on numbers (true division). *)
Definition truediv (a b : Q) : result Q :=
  if Qeq_bool b 0 then Raise ZeroDivisionError else Ok (a / b)%Q.

End Py.
Export Py.

(** ** The monad of handler methods *)

Section HandlerMonad.
Context {S E : Type}.

(** Final outcome, final object and the effects emitted, oldest first. *)
Definition M (A : Type) : Type := S -> result A * S * list E.

Definition ret {A} (a : A) : M A := fun s => (Ok a, s, []).

Definition bind {A B} (m : M A) (k : A -> M B) : M B :=
  fun s =>
    match m s with
    | (Ok a, s1, es1) =>
        match k a s1 with
        | (r, s2, es2) => (r, s2, es1 ++ es2)
        end
    | (Raise e, s1, es1) => (Raise e, s1, es1)
    end.

Definition get : M S := fun s => (Ok s, s, []).
Definition put (s : S) : M unit := fun _ => (Ok tt, s, []).
Definition modify (f : S -> S) : M unit := fun s => (Ok tt, f s, []).
Definition emit (e : E) : M unit := fun s => (Ok tt, s, [e]).
Definition raise {A} (e : exn) : M A := fun s => (Raise e, s, []).

(** The value or the exception of a pure computation. *)
Definition lift {A} (r : result A) : M A := fun s => (r, s, []).

Definition outcome {A} (x : result A * S * list E) : result A := fst (fst x).
Definition final {A} (x : result A * S * list E) : S := snd (fst x).
Definition effects {A} (x : result A * S * list E) : list E := snd x.
End HandlerMonad.

(** Unfolding the monad in a goal. *)
Ltac run_handler :=
  unfold bind, get, put, modify, emit, raise, lift, ret,
    outcome, final, effects; cbn.

Declare Scope handler_scope.
Delimit Scope handler_scope with handler.
Notation "x <- m ;; k" := (bind m (fun x => k))
  (at level 100, m at next level, right associativity) : handler_scope.
Notation "m ;; k" := (bind m (fun _ => k))
  (at level 100, right associativity) : handler_scope.

(** ** Configuration and volume conversion

    Both files read the same platform schema and carry the same
    conversion between the device's volume and the 0..1 level of the
    media-player entity. *)

Record Config : Type := {
  conf_name : string;
  conf_host : string;
  conf_reconnect_interval : Z;
  conf_min_volume : Z;
  conf_max_volume : Z;
  conf_volume_step : Z
}.

Module Volume.
Section WithBounds.
Variables min_vol max_vol : Z.

(** [NADDevice.nad_vol_to_internal_vol] (same body in both files). *)
Definition nad_vol_to_internal_vol (nad_vol : pyval) : result Q :=
  match nad_vol with
  | PyNone => Ok 0%Q
  | _ =>
      match as_number nad_vol with
      | Raise e => Raise e
      | Ok n =>
          if Qltb n (inject_Z min_vol) then Ok 0%Q
          else if Qltb (inject_Z max_vol) n then Ok 1%Q
          else truediv (n - inject_Z min_vol)
                       (inject_Z max_vol - inject_Z min_vol)
      end
  end.

(** [int(round(internal_vol * (max - min) + min))]: the body of
    [internal_vol_to_nad_vol] in the client platform and the value
    computed in [async_set_volume_level] of the protocol platform. *)
Definition internal_vol_to_nad_vol (internal_vol : pyval) : result Z :=
  match as_number internal_vol with
  | Raise e => Raise e
  | Ok v =>
      Ok (round (v * (inject_Z max_vol - inject_Z min_vol)
                 + inject_Z min_vol)%Q)
  end.
End WithBounds.
End Volume.

(** ** Home Assistant constants *)

(** [homeassistant.const.STATE_*]: the entity states the handlers use. *)
Inductive entity_state : Type :=
| STATE_ON
| STATE_OFF
| STATE_UNKNOWN
| STATE_UNAVAILABLE.

(** [homeassistant.core.CoreState]. *)
Inductive CoreState : Type :=
| not_running
| starting
| running
| stopping.

Definition CoreState_eqb (a b : CoreState) : bool :=
  match a, b with
  | not_running, not_running | starting, starting
  | running, running | stopping, stopping => true
  | _, _ => false
  end.

Inductive bus_event : Type :=
| EVENT_HOMEASSISTANT_START
| EVENT_HOMEASSISTANT_STOP.

(** ** [components/nadtcp2/media_player.py] *)

Module ClientPlatform.

(** The object built by [NADReceiverTCPC338(host, loop,
    reconnect_interval=..., state_changed_cb=...)]. *)
Record Client : Type := {
  client_host : string;
  client_reconnect_interval : Z
}.

Record NADDevice : Type := {
  _client : option Client;
  _name : string;
  _host : string;
  _reconnect_interval : Z;
  _min_vol : Z;
  _max_vol : Z;
  _volume_step : Z;
  _state : entity_state;
  _muted : pyval;
  _volume : pyval;
  _source : pyval
}.

(** [NADDevice.__init__]. *)
Definition __init__ (name host : string)
    (reconnect_interval min_volume max_volume volume_step : Z) : NADDevice :=
  {| _client := None;
     _name := name;
     _host := host;
     _reconnect_interval := reconnect_interval;
     _min_vol := min_volume;
     _max_vol := max_volume;
     _volume_step := volume_step;
     _state := STATE_UNKNOWN;
     _muted := PyNone;
     _volume := PyNone;
     _source := PyNone |}.

(** [async_setup_platform]: the handler of a configuration. *)
Definition async_setup_platform (config : Config) : NADDevice :=
  __init__ (conf_name config) (conf_host config)
           (conf_reconnect_interval config)
           (conf_min_volume config) (conf_max_volume config)
           (conf_volume_step config).

Definition set_client (c : option Client) (self : NADDevice) : NADDevice :=
  {| _client := c; _name := _name self; _host := _host self;
     _reconnect_interval := _reconnect_interval self;
     _min_vol := _min_vol self; _max_vol := _max_vol self;
     _volume_step := _volume_step self; _state := _state self;
     _muted := _muted self; _volume := _volume self;
     _source := _source self |}.

Definition set_state (v : entity_state) (self : NADDevice) : NADDevice :=
  {| _client := _client self; _name := _name self; _host := _host self;
     _reconnect_interval := _reconnect_interval self;
     _min_vol := _min_vol self; _max_vol := _max_vol self;
     _volume_step := _volume_step self; _state := v;
     _muted := _muted self; _volume := _volume self;
     _source := _source self |}.

Definition set_muted (v : pyval) (self : NADDevice) : NADDevice :=
  {| _client := _client self; _name := _name self; _host := _host self;
     _reconnect_interval := _reconnect_interval self;
     _min_vol := _min_vol self; _max_vol := _max_vol self;
     _volume_step := _volume_step self; _state := _state self;
     _muted := v; _volume := _volume self;
     _source := _source self |}.

Definition set_volume_field (v : pyval) (self : NADDevice) : NADDevice :=
  {| _client := _client self; _name := _name self; _host := _host self;
     _reconnect_interval := _reconnect_interval self;
     _min_vol := _min_vol self; _max_vol := _max_vol self;
     _volume_step := _volume_step self; _state := _state self;
     _muted := _muted self; _volume := v;
     _source := _source self |}.

Definition set_source (v : pyval) (self : NADDevice) : NADDevice :=
  {| _client := _client self; _name := _name self; _host := _host self;
     _reconnect_interval := _reconnect_interval self;
     _min_vol := _min_vol self; _max_vol := _max_vol self;
     _volume_step := _volume_step self; _state := _state self;
     _muted := _muted self; _volume := _volume self;
     _source := v |}.

(** The four fields that make up the last known state of the device. *)
Definition device_state (self : NADDevice)
  : entity_state * pyval * pyval * pyval :=
  (_state self, _volume self, _muted self, _source self).

(** What an inbound update reads of the handler, and what it writes. *)
Definition view (self : NADDevice)
  : entity_state * pyval * pyval * pyval * Z * Z :=
  (device_state self, _min_vol self, _max_vol self).

(** The coroutines of the client that the handler awaits. *)
Inductive client_call : Type :=
| power_off
| power_on
| set_volume (volume : Q)
| mute
| unmute
| select_source (source : pyval)
| connect
| disconnect.

Inductive listener : Type :=
| listener_connect
| listener_disconnect.

Inductive effect : Type :=
| Await (c : client_call)
| NewClient (c : Client)
| DispatcherConnect
| DispatcherSend (state : gmap string pyval)
| ListenOnce (ev : bus_event) (l : listener)
| ScheduleUpdateHaState.

Local Open Scope handler_scope.

Definition nad_vol_to_internal_vol (self : NADDevice) (nad_vol : pyval)
  : result Q :=
  Volume.nad_vol_to_internal_vol (_min_vol self) (_max_vol self) nad_vol.

Definition internal_vol_to_nad_vol (self : NADDevice) (internal_vol : pyval)
  : result Z :=
  Volume.internal_vol_to_nad_vol (_min_vol self) (_max_vol self)
                                 internal_vol.

(** The properties. *)
Definition state (self : NADDevice) : entity_state := _state self.
Definition source (self : NADDevice) : pyval := _source self.
Definition volume_level (self : NADDevice) : pyval := _volume self.
Definition is_volume_muted (self : NADDevice) : pyval := _muted self.

(** Evaluating [self._client.<method>]: [None] has no such attribute. *)
Definition client_method : M (S := NADDevice) (E := effect) unit :=
  self <- get ;;
  match _client self with
  | None => raise AttributeError
  | Some _ => ret tt
  end.

(** [await <call>]: the call is made and the client answers [answer]
    (it returns, or it raises). *)
Definition await (c : client_call) (answer : result unit)
  : M (S := NADDevice) (E := effect) unit :=
  emit (Await c) ;; lift answer.

Definition async_turn_off (answer : result unit) : M unit :=
  client_method ;; await power_off answer.

Definition async_turn_on (answer : result unit) : M unit :=
  client_method ;; await power_on answer.

Definition async_volume_up (answer : result unit) : M unit :=
  client_method ;;
  self <- get ;;
  nad <- lift (internal_vol_to_nad_vol self (volume_level self)) ;;
  await (set_volume (inject_Z nad + inject_Z (_volume_step self) * (1 # 2))%Q)
        answer.

Definition async_volume_down (answer : result unit) : M unit :=
  client_method ;;
  self <- get ;;
  nad <- lift (internal_vol_to_nad_vol self (volume_level self)) ;;
  await (set_volume (inject_Z nad - inject_Z (_volume_step self) * (1 # 2))%Q)
        answer.

Definition async_set_volume_level (volume : pyval) (answer : result unit)
  : M unit :=
  client_method ;;
  self <- get ;;
  nad <- lift (internal_vol_to_nad_vol self volume) ;;
  await (set_volume (inject_Z nad)) answer.

Definition async_mute_volume (mute_arg : pyval) (answer : result unit)
  : M unit :=
  if truthy mute_arg
  then client_method ;; await mute answer
  else client_method ;; await unmute answer.

Definition async_select_source (source_arg : pyval) (answer : result unit)
  : M unit :=
  client_method ;; await (select_source source_arg) answer.

(** The closures of [async_added_to_hass]; the keys [CMD_POWER],
    [CMD_VOLUME], [CMD_MUTE] and [CMD_SOURCE] are imported from the
    [nadtcp] library. *)
Section Closures.
Variables CMD_POWER CMD_VOLUME CMD_MUTE CMD_SOURCE : string.

Definition state_changed_cb (st : gmap string pyval)
  : M (S := NADDevice) (E := effect) unit :=
  emit (DispatcherSend st).

Definition handle_state_changed (st : gmap string pyval)
  : M (S := NADDevice) (E := effect) unit :=
  match st !! CMD_POWER with
  | Some v => modify (set_state (if truthy v then STATE_ON else STATE_OFF))
  | None => modify (set_state STATE_UNKNOWN)
  end ;;
  match st !! CMD_VOLUME with
  | Some v =>
      self <- get ;;
      level <- lift (nad_vol_to_internal_vol self v) ;;
      modify (set_volume_field (PyNum level))
  | None => ret tt
  end ;;
  match st !! CMD_MUTE with
  | Some v => modify (set_muted v)
  | None => ret tt
  end ;;
  match st !! CMD_SOURCE with
  | Some v => modify (set_source v)
  | None => ret tt
  end ;;
  emit ScheduleUpdateHaState.

Definition disconnect_listener (answer : result unit) : M unit :=
  client_method ;; await disconnect answer.

Definition connect_listener (answer : result unit) : M unit :=
  client_method ;;
  await connect answer ;;
  emit (ListenOnce EVENT_HOMEASSISTANT_STOP listener_disconnect).

(** [is_running] is the value of [self.hass.is_running]. *)
Definition async_added_to_hass (is_running : bool) (answer : result unit)
  : M unit :=
  self <- get ;;
  let c := {| client_host := _host self;
              client_reconnect_interval := _reconnect_interval self |} in
  modify (set_client (Some c)) ;;
  emit (NewClient c) ;;
  emit DispatcherConnect ;;
  if is_running
  then connect_listener answer
  else emit (ListenOnce EVENT_HOMEASSISTANT_START listener_connect).

(** The service calls of the media-player entity. *)
Inductive command : Type :=
| TurnOff
| TurnOn
| VolumeUp
| VolumeDown
| SetVolumeLevel (volume : pyval)
| MuteVolume (mute_arg : pyval)
| SelectSource (source_arg : pyval).

Definition serve (c : command) (answer : result unit) : M unit :=
  match c with
  | TurnOff => async_turn_off answer
  | TurnOn => async_turn_on answer
  | VolumeUp => async_volume_up answer
  | VolumeDown => async_volume_down answer
  | SetVolumeLevel v => async_set_volume_level v answer
  | MuteVolume m => async_mute_volume m answer
  | SelectSource s => async_select_source s answer
  end.

(** What can happen to a handler: a service call, a bus event, a state
    reported by the client, a state delivered by the dispatcher. *)
Inductive op : Type :=
| Service (c : command) (answer : result unit)
| AddedToHass (is_running : bool) (answer : result unit)
| OnStart (answer : result unit)
| OnStop (answer : result unit)
| ClientStateChanged (st : gmap string pyval)
| StateReceived (st : gmap string pyval).

Definition perform (o : op) : M unit :=
  match o with
  | Service c a => serve c a
  | AddedToHass r a => async_added_to_hass r a
  | OnStart a => connect_listener a
  | OnStop a => disconnect_listener a
  | ClientStateChanged st => state_changed_cb st
  | StateReceived st => handle_state_changed st
  end.

(** [StateReceived] is the one operation that applies an inbound
    state update. *)
Definition is_update (o : op) : bool :=
  match o with StateReceived _ => true | _ => false end.

(** A history: an exception ends the operation that raised it, not
    the handler. *)
Fixpoint run (ops : list op) (self : NADDevice) : NADDevice :=
  match ops with
  | [] => self
  | o :: rest => run rest (final (perform o self))
  end.
End Closures.

End ClientPlatform.

(** ** [components/media_player/nadtcp2.py] *)

Module ProtocolPlatform.

Inductive ProtocolClass : Type :=
| NADC338Protocol.

(** A protocol instance of the [nadtcp] library, as far as the handler
    reads it: its message constants and its source list. *)
Record Protocol : Type := {
  MSG_ON : pyval;
  MSG_OFF : pyval;
  MSG_MAIN : pyval;
  MSG_POWER : pyval;
  MSG_VOLUME : pyval;
  MSG_MUTE : pyval;
  MSG_SOURCE : pyval;
  get_available_sources : list pyval
}.

Inductive Transport : Type :=
| transport (id : nat).

Record NADDevice : Type := {
  _protocol_class : ProtocolClass;
  _protocol : option Protocol;
  _name : string;
  _host : string;
  _reconnect_interval : Z;
  _min_vol : Z;
  _max_vol : Z;
  _volume_step : Z;
  _power : pyval;
  _muted : pyval;
  _volume : pyval;
  _source : pyval
}.

(** [NADDevice.__init__]. *)
Definition __init__ (protocol_class : ProtocolClass) (name host : string)
    (reconnect_interval min_volume max_volume volume_step : Z) : NADDevice :=
  {| _protocol_class := protocol_class;
     _protocol := None;
     _name := name;
     _host := host;
     _reconnect_interval := reconnect_interval;
     _min_vol := min_volume;
     _max_vol := max_volume;
     _volume_step := volume_step;
     _power := PyNone;
     _muted := PyNone;
     _volume := PyNone;
     _source := PyNone |}.

(** [async_setup_platform]: the handler of a configuration. *)
Definition async_setup_platform (config : Config) : NADDevice :=
  __init__ NADC338Protocol (conf_name config) (conf_host config)
           (conf_reconnect_interval config)
           (conf_min_volume config) (conf_max_volume config)
           (conf_volume_step config).

Definition with_protocol (p : option Protocol) (self : NADDevice)
  : NADDevice :=
  {| _protocol_class := _protocol_class self; _protocol := p;
     _name := _name self; _host := _host self;
     _reconnect_interval := _reconnect_interval self;
     _min_vol := _min_vol self; _max_vol := _max_vol self;
     _volume_step := _volume_step self; _power := _power self;
     _muted := _muted self; _volume := _volume self;
     _source := _source self |}.

Definition with_power (v : pyval) (self : NADDevice) : NADDevice :=
  {| _protocol_class := _protocol_class self; _protocol := _protocol self;
     _name := _name self; _host := _host self;
     _reconnect_interval := _reconnect_interval self;
     _min_vol := _min_vol self; _max_vol := _max_vol self;
     _volume_step := _volume_step self; _power := v;
     _muted := _muted self; _volume := _volume self;
     _source := _source self |}.

Definition with_muted (v : pyval) (self : NADDevice) : NADDevice :=
  {| _protocol_class := _protocol_class self; _protocol := _protocol self;
     _name := _name self; _host := _host self;
     _reconnect_interval := _reconnect_interval self;
     _min_vol := _min_vol self; _max_vol := _max_vol self;
     _volume_step := _volume_step self; _power := _power self;
     _muted := v; _volume := _volume self;
     _source := _source self |}.

Definition with_volume (v : pyval) (self : NADDevice) : NADDevice :=
  {| _protocol_class := _protocol_class self; _protocol := _protocol self;
     _name := _name self; _host := _host self;
     _reconnect_interval := _reconnect_interval self;
     _min_vol := _min_vol self; _max_vol := _max_vol self;
     _volume_step := _volume_step self; _power := _power self;
     _muted := _muted self; _volume := v;
     _source := _source self |}.

Definition with_source (v : pyval) (self : NADDevice) : NADDevice :=
  {| _protocol_class := _protocol_class self; _protocol := _protocol self;
     _name := _name self; _host := _host self;
     _reconnect_interval := _reconnect_interval self;
     _min_vol := _min_vol self; _max_vol := _max_vol self;
     _volume_step := _volume_step self; _power := _power self;
     _muted := _muted self; _volume := _volume self;
     _source := v |}.

(** The four fields that make up the last known state of the device. *)
Definition device_state (self : NADDevice) : pyval * pyval * pyval * pyval :=
  (_power self, _volume self, _muted self, _source self).

(** The methods of the protocol that the handler calls. *)
Inductive protocol_call : Type :=
| set_value (key value : pyval)
| get_value (key : pyval)
| cycle_up (key : pyval)
| cycle_down (key : pyval).

Inductive log_level : Type :=
| log_debug
| log_info
| log_warning
| log_exception.

(** The targets handed to [hass.async_add_job]. *)
Inductive job : Type :=
| job_connect
| job_async_update.

(** The callback handed to [loop.call_later]: [reconnect], with its
    argument. *)
Inductive callback : Type :=
| call_reconnect (exc : exn).

Inductive effect : Type :=
| Call (c : protocol_call)
| Log (l : log_level)
| AsyncRunJobUpdateHaState
| AsyncAddJob (j : job)
| CallLater (delay : Z) (cb : callback)
| CreateNadConnection (target_ip : string)
| ListenOnceStopClose (t : Transport).

Local Open Scope handler_scope.

Definition nad_vol_to_internal_vol (self : NADDevice) (nad_volume : pyval)
  : result Q :=
  Volume.nad_vol_to_internal_vol (_min_vol self) (_max_vol self) nad_volume.

Definition set_protocol (protocol : option Protocol)
  : M (S := NADDevice) (E := effect) unit :=
  modify (with_protocol protocol).

Definition is_connected (self : NADDevice) : bool :=
  match _protocol self with Some _ => true | None => false end.

Definition message_received (key : string) (value : pyval)
  : M (S := NADDevice) (E := effect) unit :=
  (if String.eqb key "Main.Volume" then modify (with_volume value)
   else if String.eqb key "Main.Power" then modify (with_power value)
   else if String.eqb key "Main.Mute" then modify (with_muted value)
   else if String.eqb key "Main.Source" then modify (with_source value)
   else ret tt) ;;
  emit AsyncRunJobUpdateHaState.

(** Evaluating an attribute of [self._protocol]. *)
Definition the_protocol : M (S := NADDevice) (E := effect) Protocol :=
  self <- get ;;
  match _protocol self with
  | None => raise AttributeError
  | Some p => ret p
  end.

(** A call on the protocol: it is made and the protocol answers
    [answer] (it returns, or it raises). *)
Definition call (c : protocol_call) (answer : result unit)
  : M (S := NADDevice) (E := effect) unit :=
  emit (Call c) ;; lift answer.

(** The properties. *)
Definition state (self : NADDevice) : result entity_state :=
  if is_connected self then
    match _protocol self with
    | None => Raise AttributeError
    | Some p => Ok (if py_eq (_power self) (MSG_ON p) then STATE_ON
                    else STATE_OFF)
    end
  else Ok STATE_OFF.

Definition source (self : NADDevice) : pyval := _source self.

Definition source_list (self : NADDevice) : result (list pyval) :=
  if is_connected self then
    match _protocol self with
    | None => Raise AttributeError
    | Some p => Ok (get_available_sources p)
    end
  else Ok [].

Definition volume_level (self : NADDevice) : result Q :=
  nad_vol_to_internal_vol self (_volume self).

Definition is_volume_muted (self : NADDevice) : result bool :=
  if is_connected self then
    match _protocol self with
    | None => Raise AttributeError
    | Some p => Ok (py_eq (_muted self) (MSG_ON p))
    end
  else Ok false.

Definition async_turn_off (answer : result unit) : M unit :=
  self <- get ;;
  if is_connected self then
    p <- the_protocol ;;
    call (set_value (MSG_POWER p) (MSG_OFF p)) answer
  else ret tt.

Definition async_turn_on (answer : result unit) : M unit :=
  self <- get ;;
  if is_connected self then
    p <- the_protocol ;;
    call (set_value (MSG_POWER p) (MSG_ON p)) answer
  else ret tt.

Definition async_volume_up (answer : result unit) : M unit :=
  self <- get ;;
  if is_connected self then
    p <- the_protocol ;;
    call (cycle_up (MSG_VOLUME p)) answer
  else ret tt.

Definition async_volume_down (answer : result unit) : M unit :=
  self <- get ;;
  if is_connected self then
    p <- the_protocol ;;
    call (cycle_down (MSG_VOLUME p)) answer
  else ret tt.

Definition async_set_volume_level (volume : pyval) (answer : result unit)
  : M unit :=
  self <- get ;;
  if is_connected self then
    nad_volume_to_set <-
      lift (Volume.internal_vol_to_nad_vol (_min_vol self) (_max_vol self)
                                           volume) ;;
    p <- the_protocol ;;
    call (set_value (MSG_VOLUME p) (PyInt nad_volume_to_set)) answer
  else ret tt.

Definition async_mute_volume (mute_arg : pyval) (answer : result unit)
  : M unit :=
  self <- get ;;
  if is_connected self then
    if truthy mute_arg then
      p <- the_protocol ;;
      call (set_value (MSG_MUTE p) (MSG_ON p)) answer
    else
      p <- the_protocol ;;
      call (set_value (MSG_MUTE p) (MSG_OFF p)) answer
  else ret tt.

Definition async_select_source (source_arg : pyval) (answer : result unit)
  : M unit :=
  self <- get ;;
  if is_connected self then
    p <- the_protocol ;;
    call (set_value (MSG_SOURCE p) source_arg) answer
  else ret tt.

Definition async_update (answer : result unit) : M unit :=
  self <- get ;;
  if is_connected self then
    p <- the_protocol ;;
    call (get_value (MSG_MAIN p)) answer
  else ret tt.

(** *** The closures of [async_added_to_hass] *)

(** [reconnect(exc=None)]; [hass_state] is the value of
    [self.hass.state] when it runs. *)
Definition reconnect (hass_state : CoreState) (exc : option exn)
  : M (S := NADDevice) (E := effect) unit :=
  set_protocol None ;;
  if negb (CoreState_eqb hass_state stopping) then
    emit (Log log_warning) ;;
    emit (AsyncAddJob job_connect)
  else ret tt.

Definition message_received_callback (key : string) (value : pyval)
  : M (S := NADDevice) (E := effect) unit :=
  emit (Log log_debug) ;;
  message_received key value.

(** What [yield from connection] gives under the connection timeout. *)
Inductive attempt : Type :=
| established (t : Transport) (protocol : Protocol)
| failed (exc : exn).

(** The classes named by the [except] clause of [connect], with their
    subclasses. *)
Definition caught (exc : exn) : bool :=
  match exc with
  | ConnectionRefusedError | TimeoutError | OSError | AsyncioTimeoutError =>
      true
  | TypeError | ZeroDivisionError | AttributeError | ValueError => false
  end.

Definition connect (net : attempt) : M (S := NADDevice) (E := effect) pyval :=
  self <- get ;;
  emit (Log log_info) ;;
  emit (CreateNadConnection (_host self)) ;;
  match net with
  | failed exc =>
      if caught exc then
        emit (Log log_exception) ;;
        emit (CallLater (_reconnect_interval self) (call_reconnect exc)) ;;
        ret PyNone
      else raise exc
  | established t protocol =>
      set_protocol (Some protocol) ;;
      emit (AsyncAddJob job_async_update) ;;
      emit (ListenOnceStopClose t) ;;
      ret (PyBool true)
  end.

Definition async_added_to_hass : M (S := NADDevice) (E := effect) unit :=
  emit (AsyncAddJob job_connect).

(** The service calls of the media-player entity. *)
Inductive command : Type :=
| TurnOff
| TurnOn
| VolumeUp
| VolumeDown
| SetVolumeLevel (volume : pyval)
| MuteVolume (mute_arg : pyval)
| SelectSource (source_arg : pyval).

Definition serve (c : command) (answer : result unit) : M unit :=
  match c with
  | TurnOff => async_turn_off answer
  | TurnOn => async_turn_on answer
  | VolumeUp => async_volume_up answer
  | VolumeDown => async_volume_down answer
  | SetVolumeLevel v => async_set_volume_level v answer
  | MuteVolume m => async_mute_volume m answer
  | SelectSource s => async_select_source s answer
  end.

(** What can happen to a handler. *)
Inductive op : Type :=
| Service (c : command) (answer : result unit)
| Update (answer : result unit)
| AddedToHass
| Connect (net : attempt)
| Reconnect (hass_state : CoreState) (exc : option exn)
| MessageReceived (key : string) (value : pyval).

Definition perform (o : op) : M unit :=
  match o with
  | Service c a => serve c a
  | Update a => async_update a
  | AddedToHass => async_added_to_hass
  | Connect net => connect net ;; ret tt
  | Reconnect s exc => reconnect s exc
  | MessageReceived key value => message_received_callback key value
  end.

(** [MessageReceived] is the one operation that applies an inbound
    state update. *)
Definition is_update (o : op) : bool :=
  match o with MessageReceived _ _ => true | _ => false end.

Fixpoint run (ops : list op) (self : NADDevice) : NADDevice :=
  match ops with
  | [] => self
  | o :: rest => run rest (final (perform o self))
  end.

End ProtocolPlatform.

(** ** The event loop around the protocol platform

    The environment of [components/media_player/nadtcp2.py], as far as
    its handler uses it: the jobs given to [hass.async_add_job] wait in
    a queue and are run oldest first; a callback given to
    [loop.call_later] waits until its delay has elapsed; a protocol
    calls the disconnect callback when its connection is lost and the
    message callback while it is open.  [attempts] is the record of the
    times at which a connection was attempted. *)

Module EventLoop.
Import ProtocolPlatform.

Record World : Type := {
  handler : NADDevice;
  hass_state : CoreState;
  now : Z;
  ready : list job;
  timers : list (Z * callback);
  connection : option Transport;
  attempts : list Z
}.

Definition with_handler (h : NADDevice) (w : World) : World :=
  {| handler := h; hass_state := hass_state w; now := now w;
     ready := ready w; timers := timers w; connection := connection w;
     attempts := attempts w |}.

Definition with_hass_state (s : CoreState) (w : World) : World :=
  {| handler := handler w; hass_state := s; now := now w;
     ready := ready w; timers := timers w; connection := connection w;
     attempts := attempts w |}.

Definition with_now (t : Z) (w : World) : World :=
  {| handler := handler w; hass_state := hass_state w; now := t;
     ready := ready w; timers := timers w; connection := connection w;
     attempts := attempts w |}.

Definition with_ready (js : list job) (w : World) : World :=
  {| handler := handler w; hass_state := hass_state w; now := now w;
     ready := js; timers := timers w; connection := connection w;
     attempts := attempts w |}.

Definition with_timers (ts : list (Z * callback)) (w : World) : World :=
  {| handler := handler w; hass_state := hass_state w; now := now w;
     ready := ready w; timers := ts; connection := connection w;
     attempts := attempts w |}.

Definition with_connection (c : option Transport) (w : World) : World :=
  {| handler := handler w; hass_state := hass_state w; now := now w;
     ready := ready w; timers := timers w; connection := c;
     attempts := attempts w |}.

Definition with_attempts (ts : list Z) (w : World) : World :=
  {| handler := handler w; hass_state := hass_state w; now := now w;
     ready := ready w; timers := timers w; connection := connection w;
     attempts := ts |}.

(** What a call of the handler on its environment does to the world. *)
Definition absorb (w : World) (e : effect) : World :=
  match e with
  | AsyncAddJob j => with_ready (ready w ++ [j]) w
  | CallLater delay cb => with_timers (timers w ++ [(now w + delay, cb)]) w
  | CreateNadConnection _ => with_attempts (attempts w ++ [now w]) w
  | Call _ | Log _ | AsyncRunJobUpdateHaState | ListenOnceStopClose _ => w
  end.

(** Running a method of the handler in a world. *)
Definition enact {A} (m : M (S := NADDevice) (E := effect) A) (w : World)
  : World :=
  let r := m (handler w) in
  fold_left absorb (effects r) (with_handler (final r) w).

Inductive event : Type :=
| RunJob (net : attempt) (answer : result unit)
| FireTimer (i : nat)
| ConnectionLost (exc : option exn)
| Receive (key : string) (value : pyval)
| Serve (c : command) (answer : result unit)
| CoreStateChange (s : CoreState)
| Elapse (dt : Z).

(** One event; an event that cannot happen in [w] leaves it as it is.

    - [RunJob]: the oldest waiting job runs; [net] is what the network
      answers if it is [connect], [answer] what the protocol answers if
      it is [async_update].
    - [FireTimer i]: the [i]-th waiting callback runs, no earlier than
      its deadline.
    - [ConnectionLost], [Receive]: only while a connection is open. *)
Definition step (ev : event) (w : World) : World :=
  match ev with
  | RunJob net answer =>
      match ready w with
      | [] => w
      | job_connect :: rest =>
          let w1 := enact (connect net) (with_ready rest w) in
          match net with
          | established t _ => with_connection (Some t) w1
          | failed _ => w1
          end
      | job_async_update :: rest =>
          enact (async_update answer) (with_ready rest w)
      end
  | FireTimer i =>
      match timers w !! i with
      | None => w
      | Some (due, call_reconnect exc) =>
          enact (reconnect (hass_state w) (Some exc))
                (with_now (Z.max (now w) due)
                          (with_timers (delete i (timers w)) w))
      end
  | ConnectionLost exc =>
      match connection w with
      | None => w
      | Some _ =>
          enact (reconnect (hass_state w) exc) (with_connection None w)
      end
  | Receive key value =>
      match connection w with
      | None => w
      | Some _ => enact (message_received_callback key value) w
      end
  | Serve c answer => enact (serve c answer) w
  | CoreStateChange s => with_hass_state s w
  | Elapse dt => with_now (now w + Z.max 0 dt) w
  end.

Fixpoint exec (evs : list event) (w : World) : World :=
  match evs with
  | [] => w
  | ev :: rest => exec rest (step ev w)
  end.

(** The world in which [async_added_to_hass] has just run. *)
Definition boot (config : Config) (s : CoreState) (t0 : Z) : World :=
  enact async_added_to_hass
        {| handler := async_setup_platform config; hass_state := s;
           now := t0; ready := []; timers := []; connection := None;
           attempts := [] |}.

Definition is_connect (j : job) : bool :=
  match j with job_connect => true | job_async_update => false end.

(** What can still lead to a connection attempt: a waiting [connect]
    job, a waiting [reconnect] callback, an open connection (whose loss
    calls [reconnect]). *)
Definition pending (w : World) : nat :=
  (length (List.filter is_connect (ready w)) + length (timers w)
   + match connection w with Some _ => 1 | None => 0 end)%nat.

(** The calls of the handler that the loop does not keep. *)
Definition quiet (e : effect) : bool :=
  match e with
  | Call _ | Log _ | AsyncRunJobUpdateHaState | ListenOnceStopClose _ => true
  | AsyncAddJob _ | CallLater _ _ | CreateNadConnection _ => false
  end.

(** The world without its handler. *)
Definition schedule (w : World)
  : CoreState * Z * list job * list (Z * callback) * option Transport
    * list Z :=
  (hass_state w, now w, ready w, timers w, connection w, attempts w).


(** In [w] the handler holds a protocol exactly when a connection is
    open. *)
Definition agree (w : World) : Prop :=
  is_connected (handler w) = true <-> connection w <> None.

End EventLoop.

(** ** Vocabulary of the statements *)

(** A computation on numbers returns, and returns [q]. *)
Definition returns_num (r : result Q) (q : Q) : Prop :=
  match r with
  | Ok x => (x == q)%Q
  | Raise _ => False
  end.

(** [v] brought into the configured range. *)
Definition clamp (min_vol max_vol v : Z) : Z :=
  Z.max min_vol (Z.min v max_vol).

(** The volumes of the absolute sets among the calls of the client
    platform. *)
Definition volumes_set (es : list ClientPlatform.effect) : list Q :=
  flat_map (fun e =>
              match e with
              | ClientPlatform.Await (ClientPlatform.set_volume v) => [v]
              | _ => []
              end) es.

(** ** A configuration and its handlers, for the examples

    The defaults of [components/nadtcp2/media_player.py]: volumes from
    -80 to -10, a step of 4, a reconnect interval of 10; the keys are
    those of the [nadtcp] library. *)

Module Sample.

Definition config : Config :=
  {| conf_name := "NAD amplifier";
     conf_host := "192.168.1.20";
     conf_reconnect_interval := 10;
     conf_min_volume := -80;
     conf_max_volume := -10;
     conf_volume_step := 4 |}.

Definition CMD_POWER : string := "Main.Power".
Definition CMD_VOLUME : string := "Main.Volume".
Definition CMD_MUTE : string := "Main.Mute".
Definition CMD_SOURCE : string := "Main.Source".

(** The client platform's handler, added to a running Home Assistant. *)
Definition client_handler : ClientPlatform.NADDevice :=
  final (ClientPlatform.async_added_to_hass true (Ok tt)
           (ClientPlatform.async_setup_platform config)).


(** The same, after the device has reported the volume [nad_volume]. *)
Definition client_handler_at (nad_volume : Z) : ClientPlatform.NADDevice :=
  final (ClientPlatform.handle_state_changed
           CMD_POWER CMD_VOLUME CMD_MUTE CMD_SOURCE
           {[ CMD_VOLUME := PyInt nad_volume ]} client_handler).

(** The dictionary of the inbound line [Main.Power=1]. *)
Definition power_update : gmap string pyval := {[ CMD_POWER := PyInt 1 ]}.

Definition protocol : ProtocolPlatform.Protocol :=
  {| ProtocolPlatform.MSG_ON := PyStr "On";
     ProtocolPlatform.MSG_OFF := PyStr "Off";
     ProtocolPlatform.MSG_MAIN := PyStr "Main";
     ProtocolPlatform.MSG_POWER := PyStr "Main.Power";
     ProtocolPlatform.MSG_VOLUME := PyStr "Main.Volume";
     ProtocolPlatform.MSG_MUTE := PyStr "Main.Mute";
     ProtocolPlatform.MSG_SOURCE := PyStr "Main.Source";
     ProtocolPlatform.get_available_sources :=
       [PyStr "Coax1"; PyStr "Opt1"; PyStr "Stream"; PyStr "BT"] |}.

(** The protocol platform's handler, not connected. *)
Definition protocol_handler : ProtocolPlatform.NADDevice :=
  ProtocolPlatform.async_setup_platform config.

(** The same, connected. *)
Definition connected_handler : ProtocolPlatform.NADDevice :=
  final (ProtocolPlatform.connect
           (ProtocolPlatform.established (ProtocolPlatform.transport 1)
                                         protocol)
           protocol_handler).

(** The world of the protocol platform's handler at time 0, in a running
    Home Assistant. *)
Definition world : EventLoop.World := EventLoop.boot config running 0.

(** A dictionary whose volume is not a number. *)
Definition bad_update : gmap string pyval :=
  {[ CMD_VOLUME := PyStr "loud"; CMD_MUTE := PyBool true ]}.

(** A history that opens a connection and then stops Home Assistant,
    and one that goes on for a minute after the connection is lost. *)
Definition until_stopping : list EventLoop.event :=
  [EventLoop.RunJob
     (ProtocolPlatform.established (ProtocolPlatform.transport 1) protocol)
     (Ok tt);
   EventLoop.RunJob
     (ProtocolPlatform.established (ProtocolPlatform.transport 1) protocol)
     (Ok tt);
   EventLoop.CoreStateChange stopping].

(** A history that opens a connection, and one in which the first
    attempt fails and Home Assistant stops before the retry. *)
Definition until_connected : list EventLoop.event :=
  [EventLoop.RunJob
     (ProtocolPlatform.established (ProtocolPlatform.transport 1) protocol)
     (Ok tt)].

Definition until_timer_while_stopping : list EventLoop.event :=
  [EventLoop.RunJob (ProtocolPlatform.failed OSError) (Ok tt);
   EventLoop.CoreStateChange stopping].

Definition after_stopping : list EventLoop.event :=
  [EventLoop.Elapse 60;
   EventLoop.FireTimer 0;
   EventLoop.RunJob (ProtocolPlatform.failed OSError) (Ok tt);
   EventLoop.CoreStateChange not_running;
   EventLoop.FireTimer 0;
   EventLoop.RunJob (ProtocolPlatform.failed OSError) (Ok tt)].

End Sample.

(** ** Vocabulary of the further properties *)

(** A number that is an integer. *)
Definition is_integer (x : Q) : Prop := exists z : Z, (x == inject_Z z)%Q.

(** A stored level: unknown, or a number between 0 and 1. *)
Definition unit_level (v : pyval) : Prop :=
  v = PyNone \/ exists q : Q, v = PyNum q /\ (0 <= q)%Q /\ (q <= 1)%Q.

(** What a configuration fixes of a handler of the client platform. *)
Definition client_settings (self : ClientPlatform.NADDevice)
  : string * string * Z * Z * Z * Z :=
  (ClientPlatform._name self, ClientPlatform._host self,
   ClientPlatform._reconnect_interval self, ClientPlatform._min_vol self,
   ClientPlatform._max_vol self, ClientPlatform._volume_step self).

(** What a configuration fixes of a handler of the protocol platform. *)
Definition protocol_settings (self : ProtocolPlatform.NADDevice)
  : string * string * Z * Z * Z * Z :=
  (ProtocolPlatform._name self, ProtocolPlatform._host self,
   ProtocolPlatform._reconnect_interval self, ProtocolPlatform._min_vol self,
   ProtocolPlatform._max_vol self, ProtocolPlatform._volume_step self).

(** A history that consists of service calls. *)
Definition client_services
    (calls : list (ClientPlatform.command * result unit))
  : list ClientPlatform.op :=
  map (fun ca => ClientPlatform.Service (fst ca) (snd ca)) calls.

(** The operations of a history that are no inbound update. *)
Definition client_others (ops : list ClientPlatform.op)
  : list ClientPlatform.op :=
  List.filter (fun o => negb (ClientPlatform.is_update o)) ops.

(** * Properties *)

(** ** Rounding *)

Lemma floor_bounds (x : Q) :
  (inject_Z (Qfloor x) <= x /\ x < inject_Z (Qfloor x) + 1)%Q.
Proof.
  split; [apply Qfloor_le|].
  pose proof (Qlt_floor x) as H. rewrite inject_Z_plus in H. exact H.
Qed.

Lemma round_cases (x : Q) :
  (round x = Qfloor x /\ (x - inject_Z (Qfloor x) <= 1 # 2)%Q) \/
  (round x = Qfloor x + 1 /\ (1 # 2 <= x - inject_Z (Qfloor x))%Q).
Proof.
  unfold round. cbv zeta.
  destruct (x - inject_Z (Qfloor x) ?= 1 # 2)%Q eqn:C.
  - apply Qeq_alt in C.
    destruct (Z.even (Qfloor x)); [left|right]; split; auto; rewrite C; lra.
  - apply Qlt_alt in C. left; split; auto. lra.
  - apply Qgt_alt in C. right; split; auto. lra.
Qed.

Lemma round_inject_Z (z : Z) : round (inject_Z z) = z.
Proof.
  destruct (round_cases (inject_Z z)) as [[H _]|[H C]];
    rewrite Qfloor_Z in *; auto.
  exfalso. lra.
Qed.

Lemma round_comp (x y : Q) : (x == y)%Q -> round x = round y.
Proof.
  intros E. unfold round. rewrite (Qfloor_comp _ _ E).
  assert ((x - inject_Z (Qfloor y) ?= 1 # 2)
          = (y - inject_Z (Qfloor y) ?= 1 # 2))%Q as ->.
  { apply Qcompare_comp; [rewrite E|]; reflexivity. }
  reflexivity.
Qed.

Lemma round_between (a b : Z) (x : Q) :
  (inject_Z a <= x)%Q -> (x <= inject_Z b)%Q -> a <= round x <= b.
Proof.
  intros Ha Hb.
  pose proof (Qfloor_resp_le _ _ Ha) as Fa. rewrite Qfloor_Z in Fa.
  pose proof (Qfloor_resp_le _ _ Hb) as Fb. rewrite Qfloor_Z in Fb.
  destruct (round_cases x) as [[-> _]|[-> C]]; [lia|].
  split; [lia|].
  destruct (Z.eq_dec (Qfloor x) b) as [E|N]; [|lia].
  exfalso. rewrite E in C. lra.
Qed.


(** Ties go to the even neighbour, on both sides of zero. *)
Example round_ties_to_even :
  round (5 # 2) = 2 /\ round (7 # 2) = 4 /\ round (-1 # 2) = 0
  /\ round (-3 # 2) = -2 /\ round (12 # 5) = 2 /\ round (13 # 5) = 3.
Proof. repeat split; reflexivity. Qed.

(** ** Volume conversion *)

Lemma Qltb_lt (x y : Q) : Qltb x y = true <-> (x < y)%Q.
Proof.
  unfold Qltb. rewrite negb_true_iff.
  split.
  - intros H. apply Qnot_le_lt. intros L.
    apply Qle_bool_iff in L. congruence.
  - intros H. destruct (Qle_bool y x) eqn:L; [|reflexivity].
    apply Qle_bool_iff in L. lra.
Qed.

Lemma Qltb_ge (x y : Q) : Qltb x y = false <-> (y <= x)%Q.
Proof.
  unfold Qltb. rewrite negb_false_iff. apply Qle_bool_iff.
Qed.

Lemma inject_Z_lt (a b : Z) : a < b -> (inject_Z a < inject_Z b)%Q.
Proof. intros H. rewrite <- Zlt_Qlt. exact H. Qed.

Lemma inject_Z_le (a b : Z) : a <= b -> (inject_Z a <= inject_Z b)%Q.
Proof. intros H. rewrite <- Zle_Qle. exact H. Qed.

Section Conversion.
Variables min_vol max_vol : Z.
Hypothesis range : min_vol < max_vol.

Local Abbreviation lo := (inject_Z min_vol).
Local Abbreviation hi := (inject_Z max_vol).

Lemma span_positive : (0 < hi - lo)%Q.
Proof using range.
  pose proof (inject_Z_lt _ _ range). lra.
Qed.

Lemma to_internal_below (n : Q) :
  (n < lo)%Q ->
  Volume.nad_vol_to_internal_vol min_vol max_vol (PyNum n) = Ok 0%Q.
Proof using Type.
  intros H. cbn. apply Qltb_lt in H. rewrite H. reflexivity.
Qed.

Lemma to_internal_above (n : Q) :
  (hi < n)%Q ->
  Volume.nad_vol_to_internal_vol min_vol max_vol (PyNum n) = Ok 1%Q.
Proof using range.
  intros H. cbn. pose proof span_positive as P.
  assert (Qltb n lo = false) as -> by (apply Qltb_ge; lra).
  apply Qltb_lt in H. rewrite H. reflexivity.
Qed.

Lemma to_internal_within (n : Q) :
  (lo <= n)%Q -> (n <= hi)%Q ->
  Volume.nad_vol_to_internal_vol min_vol max_vol (PyNum n)
  = Ok ((n - lo) / (hi - lo))%Q.
Proof using range.
  intros L U. cbn. pose proof span_positive as P.
  assert (Qltb n lo = false) as -> by (apply Qltb_ge; lra).
  assert (Qltb hi n = false) as -> by (apply Qltb_ge; lra).
  unfold truediv.
  destruct (Qeq_bool (inject_Z max_vol - inject_Z min_vol) 0) eqn:Z0.
  - apply Qeq_bool_iff in Z0. lra.
  - reflexivity.
Qed.

(** Within the range the level lies between 0 and 1. *)
Lemma level_within_unit (n : Q) :
  (lo <= n)%Q -> (n <= hi)%Q ->
  (0 <= (n - lo) / (hi - lo) /\ (n - lo) / (hi - lo) <= 1)%Q.
Proof using range.
  intros L U. pose proof span_positive as P.
  split.
  - apply Qle_shift_div_l; [exact P|]. lra.
  - apply Qle_shift_div_r; [exact P|]. lra.
Qed.

(** The level of [n], scaled back, is [n]. *)
Lemma level_scaled_back (n : Q) :
  ((n - lo) / (hi - lo) * (hi - lo) + lo == n)%Q.
Proof using range.
  pose proof span_positive as P. field. lra.
Qed.

(** Every number has a level, between 0 and 1. *)
Lemma to_internal_number (n : Q) :
  exists q, Volume.nad_vol_to_internal_vol min_vol max_vol (PyNum n) = Ok q
            /\ (0 <= q <= 1)%Q.
Proof using range.
  destruct (Qlt_le_dec n lo) as [B|L].
  - exists 0%Q. split; [apply to_internal_below; exact B | lra].
  - destruct (Qlt_le_dec hi n) as [A|U].
    + exists 1%Q. split; [apply to_internal_above; exact A | lra].
    + eexists. split; [apply to_internal_within; assumption|].
      apply level_within_unit; assumption.
Qed.

Lemma to_nad_unit (q : Q) :
  (0 <= q)%Q -> (q <= 1)%Q ->
  min_vol <= round (q * (hi - lo) + lo) <= max_vol.
Proof using range.
  intros L U. pose proof span_positive as P.
  apply round_between; nra.
Qed.

(** A stored level of an integer volume converts back to the volume
    brought into the range. *)
Lemma to_nad_of_level (v : Z) (q : Q) :
  Volume.nad_vol_to_internal_vol min_vol max_vol (PyInt v) = Ok q ->
  Volume.internal_vol_to_nad_vol min_vol max_vol (PyNum q)
  = Ok (clamp min_vol max_vol v).
Proof using range.
  intros H. unfold PyInt in H. pose proof span_positive as P.
  unfold Volume.internal_vol_to_nad_vol. cbn [as_number]. f_equal.
  unfold clamp.
  destruct (Z_lt_le_dec v min_vol) as [B|L].
  - rewrite to_internal_below in H by (apply inject_Z_lt; exact B).
    injection H as <-.
    rewrite (round_comp _ lo) by lra. rewrite round_inject_Z. lia.
  - destruct (Z_lt_le_dec max_vol v) as [A|U].
    + rewrite to_internal_above in H by (apply inject_Z_lt; exact A).
      injection H as <-.
      rewrite (round_comp _ hi) by lra. rewrite round_inject_Z.
      lia.
    + rewrite to_internal_within in H by (apply inject_Z_le; assumption).
      injection H as <-.
      rewrite (round_comp _ (inject_Z v)) by apply level_scaled_back.
      rewrite round_inject_Z. lia.
Qed.
End Conversion.

Example to_internal_middle :
  returns_num (Volume.nad_vol_to_internal_vol (-80) (-10) (PyInt (-45)))
              (1 # 2).
Proof. reflexivity. Qed.

Example to_nad_middle :
  Volume.internal_vol_to_nad_vol (-80) (-10) (PyNum (1 # 2)) = Ok (-45).
Proof. reflexivity. Qed.

(** A volume that is not a number has no level: the comparison raises. *)
Example to_internal_of_str :
  Volume.nad_vol_to_internal_vol (-80) (-10) (PyStr "-45") = Raise TypeError.
Proof. reflexivity. Qed.

(** With an empty range the one volume inside it has no level: the
    division raises. *)
Example to_internal_empty_range :
  Volume.nad_vol_to_internal_vol 5 5 (PyInt 5) = Raise ZeroDivisionError.
Proof. reflexivity. Qed.



(** C9: with [min_vol < max_vol], [nad_vol_to_internal_vol] applied to
    [None] or to any integer returns (it does not raise: the divisor is
    not zero) and its value lies in the closed interval [0, 1]. *)
Theorem nad_vol_to_internal_vol_total (min_vol max_vol : Z) (nad_vol : pyval) :
  min_vol < max_vol ->
  nad_vol = PyNone \/ (exists v : Z, nad_vol = PyInt v) ->
  exists q : Q,
    Volume.nad_vol_to_internal_vol min_vol max_vol nad_vol = Ok q
    /\ (0 <= q)%Q /\ (q <= 1)%Q.
Proof.
  intros range [-> | [v ->]].
  - exists 0%Q. split; [reflexivity|]. split; lra.
  - unfold PyInt.
    destruct (to_internal_number _ _ range (inject_Z v)) as (q & E & L & U).
    exists q. auto.
Qed.

Lemma nad_vol_to_internal_vol_total_witness :
  -80 < -10 /\
  (PyInt (-40) = PyNone \/ (exists v : Z, PyInt (-40) = PyInt v)) /\
  exists q : Q,
    Volume.nad_vol_to_internal_vol (-80) (-10) (PyInt (-40)) = Ok q
    /\ (0 <= q)%Q /\ (q <= 1)%Q.
Proof.
  assert (-80 < -10) as range by lia.
  assert (PyInt (-40) = PyNone \/ (exists v : Z, PyInt (-40) = PyInt v))
    as input by (right; exists (-40); reflexivity).
  split; [exact range|]. split; [exact input|].
  exact (nad_vol_to_internal_vol_total (-80) (-10) (PyInt (-40)) range input).
Defined.

(** C10: with [min_vol < max_vol], for every integer [v] with
    [min_vol <= v <= max_vol] the level of [v] converted back is [v]:
    [internal_vol_to_nad_vol (nad_vol_to_internal_vol v) = v], the
    arithmetic being exact. *)
Theorem volume_round_trip (min_vol max_vol v : Z) :
  min_vol < max_vol ->
  min_vol <= v <= max_vol ->
  exists q : Q,
    Volume.nad_vol_to_internal_vol min_vol max_vol (PyInt v) = Ok q
    /\ Volume.internal_vol_to_nad_vol min_vol max_vol (PyNum q) = Ok v.
Proof.
  intros range [L U].
  destruct (to_internal_number _ _ range (inject_Z v)) as (q & E & _).
  exists q. split; [exact E|].
  rewrite (to_nad_of_level _ _ range v q E).
  unfold clamp. f_equal. lia.
Qed.

Lemma volume_round_trip_witness :
  -80 < -10 /\ -80 <= -37 <= -10 /\
  exists q : Q,
    Volume.nad_vol_to_internal_vol (-80) (-10) (PyInt (-37)) = Ok q
    /\ Volume.internal_vol_to_nad_vol (-80) (-10) (PyNum q) = Ok (-37).
Proof.
  assert (-80 < -10) as range by lia.
  assert (-80 <= -37 <= -10) as inside by lia.
  split; [exact range|]. split; [exact inside|].
  exact (volume_round_trip (-80) (-10) (-37) range inside).
Defined.

(** ** The client platform *)

Module ClientFacts.
Import ClientPlatform.

Lemma client_volume_up_call (self : NADDevice) (c : Client) (n : Z)
    (answer : result unit) :
  _client self = Some c ->
  internal_vol_to_nad_vol self (volume_level self) = Ok n ->
  async_volume_up answer self
  = (answer, self,
     [Await (set_volume
               (inject_Z n + inject_Z (_volume_step self) * (1 # 2))%Q)]).
Proof.
  intros Hc Hn. unfold async_volume_up, client_method, await.
  run_handler. rewrite Hc. cbn. rewrite Hn. reflexivity.
Qed.

Lemma client_volume_down_call (self : NADDevice) (c : Client) (n : Z)
    (answer : result unit) :
  _client self = Some c ->
  internal_vol_to_nad_vol self (volume_level self) = Ok n ->
  async_volume_down answer self
  = (answer, self,
     [Await (set_volume
               (inject_Z n - inject_Z (_volume_step self) * (1 # 2))%Q)]).
Proof.
  intros Hc Hn. unfold async_volume_down, client_method, await.
  run_handler. rewrite Hc. cbn. rewrite Hn. reflexivity.
Qed.

Section Closures.
Variables CMD_POWER CMD_VOLUME CMD_MUTE CMD_SOURCE : string.
Local Abbreviation handle_state_changed :=
  (handle_state_changed CMD_POWER CMD_VOLUME CMD_MUTE CMD_SOURCE).

(** An update touches neither the client nor the configuration. *)
Lemma handle_state_changed_frame (st : gmap string pyval) (self : NADDevice) :
  _client (final (handle_state_changed st self)) = _client self
  /\ _min_vol (final (handle_state_changed st self)) = _min_vol self
  /\ _max_vol (final (handle_state_changed st self)) = _max_vol self
  /\ _volume_step (final (handle_state_changed st self)) = _volume_step self.
Proof using Type.
  unfold ClientPlatform.handle_state_changed. run_handler.
  destruct (st !! CMD_POWER), (st !! CMD_VOLUME) as [v|]; cbn;
    try destruct (nad_vol_to_internal_vol _ v); cbn;
    destruct (st !! CMD_MUTE), (st !! CMD_SOURCE); cbn; auto.
Qed.

Lemma handle_state_changed_volume (st : gmap string pyval) (self : NADDevice)
    (v : pyval) (q : Q) :
  st !! CMD_VOLUME = Some v ->
  nad_vol_to_internal_vol self v = Ok q ->
  _volume (final (handle_state_changed st self)) = PyNum q.
Proof using Type.
  intros Hv Hq.
  unfold ClientPlatform.handle_state_changed. run_handler. rewrite Hv.
  unfold nad_vol_to_internal_vol in *.
  destruct (st !! CMD_POWER); cbn in *; rewrite Hq; cbn;
    destruct (st !! CMD_MUTE), (st !! CMD_SOURCE); cbn; reflexivity.
Qed.

(** After an update that carries the integer volume [v], the stored
    level converts back to [v] brought into the range. *)
Lemma base_after_update (st : gmap string pyval) (self : NADDevice) (v : Z) :
  _min_vol self < _max_vol self ->
  st !! CMD_VOLUME = Some (PyInt v) ->
  internal_vol_to_nad_vol
    (final (handle_state_changed st self))
    (volume_level (final (handle_state_changed st self)))
  = Ok (clamp (_min_vol self) (_max_vol self) v).
Proof using Type.
  intros range Hv.
  destruct (to_internal_number _ _ range (inject_Z v)) as (q & Hq & _).
  destruct (handle_state_changed_frame st self) as (_ & Emin & Emax & _).
  unfold internal_vol_to_nad_vol, volume_level.
  rewrite Emin, Emax.
  rewrite (handle_state_changed_volume st self (PyInt v) q Hv Hq).
  apply (to_nad_of_level _ _ range v q Hq).
Qed.
End Closures.
End ClientFacts.

Module ProtocolFacts.
Import ProtocolPlatform.

Lemma protocol_volume_up_call (self : NADDevice) (answer : result unit) :
  async_volume_up answer self
  = match _protocol self with
    | Some p => (answer, self, [Call (cycle_up (MSG_VOLUME p))])
    | None => (Ok tt, self, [])
    end.
Proof.
  destruct self as [pc [p|] ? ? ? ? ? ? ? ? ? ?]; reflexivity.
Qed.

Lemma protocol_volume_down_call (self : NADDevice) (answer : result unit) :
  async_volume_down answer self
  = match _protocol self with
    | Some p => (answer, self, [Call (cycle_down (MSG_VOLUME p))])
    | None => (Ok tt, self, [])
    end.
Proof.
  destruct self as [pc [p|] ? ? ? ? ? ? ? ? ? ?]; reflexivity.
Qed.
End ProtocolFacts.

(** C1 (as the code has it): for every handler of the client platform
    with a client and [min_vol < max_vol] that has received an update
    carrying the integer volume [v], [async_volume_up] issues exactly one
    absolute volume set, whose value is [v] brought into
    [min_vol, max_vol] plus half the configured step
    ([volume_step * 0.5]), and [async_volume_down] exactly one whose
    value is that volume minus half the step.  The handler of the
    protocol platform computes no value: connected, it makes exactly one
    [cycle_up] (respectively [cycle_down]) call on the volume key;
    disconnected, none. *)
Theorem volume_step_is_half_step
    (CMD_POWER CMD_VOLUME CMD_MUTE CMD_SOURCE : string)
    (st : gmap string pyval) (v : Z)
    (self : ClientPlatform.NADDevice) (c : ClientPlatform.Client)
    (answer : result unit) (other : ProtocolPlatform.NADDevice) :
  ClientPlatform._min_vol self < ClientPlatform._max_vol self ->
  ClientPlatform._client self = Some c ->
  st !! CMD_VOLUME = Some (PyInt v) ->
  let self' :=
    final (ClientPlatform.handle_state_changed
             CMD_POWER CMD_VOLUME CMD_MUTE CMD_SOURCE st self) in
  let base :=
    inject_Z (clamp (ClientPlatform._min_vol self)
                    (ClientPlatform._max_vol self) v) in
  let half_step := (inject_Z (ClientPlatform._volume_step self) * (1 # 2))%Q in
  (exists x : Q,
      ClientPlatform.async_volume_up answer self'
      = (answer, self', [ClientPlatform.Await (ClientPlatform.set_volume x)])
      /\ (x == base + half_step)%Q)
  /\ (exists x : Q,
         ClientPlatform.async_volume_down answer self'
         = (answer, self',
            [ClientPlatform.Await (ClientPlatform.set_volume x)])
         /\ (x == base - half_step)%Q)
  /\ ProtocolPlatform.async_volume_up answer other
     = match ProtocolPlatform._protocol other with
       | Some p =>
           (answer, other,
            [ProtocolPlatform.Call
               (ProtocolPlatform.cycle_up (ProtocolPlatform.MSG_VOLUME p))])
       | None => (Ok tt, other, [])
       end
  /\ ProtocolPlatform.async_volume_down answer other
     = match ProtocolPlatform._protocol other with
       | Some p =>
           (answer, other,
            [ProtocolPlatform.Call
               (ProtocolPlatform.cycle_down (ProtocolPlatform.MSG_VOLUME p))])
       | None => (Ok tt, other, [])
       end.
Proof.
  intros range Hc Hv self' base half_step.
  pose proof (ClientFacts.base_after_update
                CMD_POWER CMD_VOLUME CMD_MUTE CMD_SOURCE st self v range Hv)
    as Hbase.
  destruct (ClientFacts.handle_state_changed_frame
              CMD_POWER CMD_VOLUME CMD_MUTE CMD_SOURCE st self)
    as (Ec & _ & _ & Es).
  fold self' in Hbase, Ec, Es. rewrite Hc in Ec.
  split; [|split; [|split]].
  - eexists. split.
    + apply (ClientFacts.client_volume_up_call self' c _ answer Ec Hbase).
    + subst base half_step. rewrite Es. reflexivity.
  - eexists. split.
    + apply (ClientFacts.client_volume_down_call self' c _ answer Ec Hbase).
    + subst base half_step. rewrite Es. reflexivity.
  - apply ProtocolFacts.protocol_volume_up_call.
  - apply ProtocolFacts.protocol_volume_down_call.
Qed.

Lemma volume_step_is_half_step_witness :
  ClientPlatform._min_vol Sample.client_handler
  < ClientPlatform._max_vol Sample.client_handler
  /\ (exists c, ClientPlatform._client Sample.client_handler = Some c)
  /\ ({[ Sample.CMD_VOLUME := PyInt (-40) ]} : gmap string pyval)
       !! Sample.CMD_VOLUME = Some (PyInt (-40))
  /\ exists x : Q,
       ClientPlatform.async_volume_up (Ok tt) (Sample.client_handler_at (-40))
       = (Ok tt, Sample.client_handler_at (-40),
          [ClientPlatform.Await (ClientPlatform.set_volume x)])
       /\ (x == -38)%Q.
Proof.
  assert (ClientPlatform._min_vol Sample.client_handler
          < ClientPlatform._max_vol Sample.client_handler) as range
    by (vm_compute; reflexivity).
  assert (ClientPlatform._client Sample.client_handler
          = Some {| ClientPlatform.client_host := "192.168.1.20";
                    ClientPlatform.client_reconnect_interval := 10 |}) as Hc
    by reflexivity.
  assert (({[ Sample.CMD_VOLUME := PyInt (-40) ]} : gmap string pyval)
            !! Sample.CMD_VOLUME = Some (PyInt (-40))) as Hv
    by (vm_compute; reflexivity).
  split; [exact range|]. split; [eexists; exact Hc|]. split; [exact Hv|].
  destruct (volume_step_is_half_step
              Sample.CMD_POWER Sample.CMD_VOLUME Sample.CMD_MUTE
              Sample.CMD_SOURCE _ (-40) Sample.client_handler _ (Ok tt)
              Sample.protocol_handler range Hc Hv)
    as ((x & Hup & Hx) & _).
  exists x. split; [exact Hup|]. rewrite Hx. vm_compute. reflexivity.
Defined.

(** C1, as stated, fails: with volumes from -80 to -10 and a step of 4,
    after the device has reported the volume -40, [async_volume_up]
    issues one absolute set with -38, which is not -40 + 4. *)
Lemma volume_step_not_full_step :
  exists x : Q,
    volumes_set
      (effects (ClientPlatform.async_volume_up
                  (Ok tt) (Sample.client_handler_at (-40)))) = [x]
    /\ (x == -38)%Q
    /\ ~ (x == inject_Z (-40 + ClientPlatform._volume_step
                                   (Sample.client_handler_at (-40))))%Q.
Proof.
  eexists. split; [vm_compute; reflexivity|].
  split; [vm_compute; reflexivity|].
  intros H. vm_compute in H. discriminate H.
Qed.

(** C2 (as the code has it): for every handler of the client platform
    with a client and [min_vol < max_vol] whose last received volume is
    [max_vol], [async_volume_up] issues exactly one absolute volume set,
    whose value is [max_vol] plus half the configured step: the stored
    level is brought into the range, the step is added after it, so the
    value stays within [max_vol] exactly when the step is not positive. *)
Theorem volume_up_at_maximum
    (CMD_POWER CMD_VOLUME CMD_MUTE CMD_SOURCE : string)
    (st : gmap string pyval)
    (self : ClientPlatform.NADDevice) (c : ClientPlatform.Client)
    (answer : result unit) :
  ClientPlatform._min_vol self < ClientPlatform._max_vol self ->
  ClientPlatform._client self = Some c ->
  st !! CMD_VOLUME = Some (PyInt (ClientPlatform._max_vol self)) ->
  let self' :=
    final (ClientPlatform.handle_state_changed
             CMD_POWER CMD_VOLUME CMD_MUTE CMD_SOURCE st self) in
  exists x : Q,
    ClientPlatform.async_volume_up answer self'
    = (answer, self', [ClientPlatform.Await (ClientPlatform.set_volume x)])
    /\ (x == inject_Z (ClientPlatform._max_vol self)
             + inject_Z (ClientPlatform._volume_step self) * (1 # 2))%Q
    /\ ((x <= inject_Z (ClientPlatform._max_vol self))%Q
        <-> ClientPlatform._volume_step self <= 0).
Proof.
  intros range Hc Hv self'.
  pose proof (ClientFacts.base_after_update
                CMD_POWER CMD_VOLUME CMD_MUTE CMD_SOURCE st self _ range Hv)
    as Hbase.
  destruct (ClientFacts.handle_state_changed_frame
              CMD_POWER CMD_VOLUME CMD_MUTE CMD_SOURCE st self)
    as (Ec & _ & _ & Es).
  fold self' in Hbase, Ec, Es. rewrite Hc in Ec.
  assert (clamp (ClientPlatform._min_vol self) (ClientPlatform._max_vol self)
                (ClientPlatform._max_vol self)
          = ClientPlatform._max_vol self) as Hclamp
    by (unfold clamp; lia).
  rewrite Hclamp in Hbase.
  eexists. split; [|split].
  - apply (ClientFacts.client_volume_up_call self' c _ answer Ec Hbase).
  - rewrite Es. reflexivity.
  - rewrite Es.
    pose proof (Zle_Qle (ClientPlatform._volume_step self) 0) as Q0.
    change (inject_Z 0) with 0%Q in Q0. rewrite Q0. split; intros H; lra.
Qed.

Lemma volume_up_at_maximum_witness :
  ClientPlatform._min_vol Sample.client_handler
  < ClientPlatform._max_vol Sample.client_handler
  /\ (exists c, ClientPlatform._client Sample.client_handler = Some c)
  /\ ({[ Sample.CMD_VOLUME := PyInt (-10) ]} : gmap string pyval)
       !! Sample.CMD_VOLUME
     = Some (PyInt (ClientPlatform._max_vol Sample.client_handler))
  /\ exists x : Q,
       ClientPlatform.async_volume_up (Ok tt) (Sample.client_handler_at (-10))
       = (Ok tt, Sample.client_handler_at (-10),
          [ClientPlatform.Await (ClientPlatform.set_volume x)])
       /\ (x == -8)%Q.
Proof.
  assert (ClientPlatform._min_vol Sample.client_handler
          < ClientPlatform._max_vol Sample.client_handler) as range
    by (vm_compute; reflexivity).
  assert (ClientPlatform._client Sample.client_handler
          = Some {| ClientPlatform.client_host := "192.168.1.20";
                    ClientPlatform.client_reconnect_interval := 10 |}) as Hc
    by reflexivity.
  assert (({[ Sample.CMD_VOLUME := PyInt (-10) ]} : gmap string pyval)
            !! Sample.CMD_VOLUME
          = Some (PyInt (ClientPlatform._max_vol Sample.client_handler)))
    as Hv by (vm_compute; reflexivity).
  split; [exact range|]. split; [eexists; exact Hc|]. split; [exact Hv|].
  destruct (volume_up_at_maximum
              Sample.CMD_POWER Sample.CMD_VOLUME Sample.CMD_MUTE
              Sample.CMD_SOURCE _ Sample.client_handler _ (Ok tt)
              range Hc Hv)
    as (x & Hup & Hx & _).
  exists x. split; [exact Hup|]. rewrite Hx. vm_compute. reflexivity.
Defined.

(** C2, as stated, fails: with volumes from -80 to -10 and a step of 4,
    after the device has reported the maximum -10, [async_volume_up]
    issues an absolute set with -8, above the maximum. *)
Lemma volume_up_exceeds_maximum :
  exists x : Q,
    volumes_set
      (effects (ClientPlatform.async_volume_up
                  (Ok tt) (Sample.client_handler_at (-10)))) = [x]
    /\ (x == -8)%Q
    /\ ~ (x <= inject_Z (ClientPlatform._max_vol
                           (Sample.client_handler_at (-10))))%Q.
Proof.
  eexists. split; [vm_compute; reflexivity|].
  split; [vm_compute; reflexivity|].
  intros H. vm_compute in H. apply H. reflexivity.
Qed.

(** ** Commands while disconnected, and inbound updates *)




(** C4: an inbound update that carries only the power key sets the power
    field from it, fires exactly one state-changed notification and keeps
    the volume, mute and source fields: on the protocol platform
    [message_received "Main.Power" value] stores [value] in [_power]; on
    the client platform [handle_state_changed] of a dictionary with the
    power key and none of the three others sets [_state] to [STATE_ON] or
    [STATE_OFF] by the truth of the value. *)
Theorem power_update_touches_power_only
    (CMD_POWER CMD_VOLUME CMD_MUTE CMD_SOURCE : string)
    (st : gmap string pyval) (value : pyval)
    (self : ClientPlatform.NADDevice) (other : ProtocolPlatform.NADDevice) :
  st !! CMD_POWER = Some value ->
  st !! CMD_VOLUME = None ->
  st !! CMD_MUTE = None ->
  st !! CMD_SOURCE = None ->
  (ClientPlatform.handle_state_changed
     CMD_POWER CMD_VOLUME CMD_MUTE CMD_SOURCE st self
   = (Ok tt,
      ClientPlatform.set_state
        (if truthy value then STATE_ON else STATE_OFF) self,
      [ClientPlatform.ScheduleUpdateHaState])
   /\ ClientPlatform.device_state
        (ClientPlatform.set_state
           (if truthy value then STATE_ON else STATE_OFF) self)
      = (if truthy value then STATE_ON else STATE_OFF,
         ClientPlatform._volume self, ClientPlatform._muted self,
         ClientPlatform._source self))
  /\ (ProtocolPlatform.message_received "Main.Power" value other
      = (Ok tt, ProtocolPlatform.with_power value other,
         [ProtocolPlatform.AsyncRunJobUpdateHaState])
      /\ ProtocolPlatform.device_state
           (ProtocolPlatform.with_power value other)
         = (value, ProtocolPlatform._volume other,
            ProtocolPlatform._muted other, ProtocolPlatform._source other)).
Proof.
  intros Hp Hv Hm Hs. split; split; try reflexivity.
  unfold ClientPlatform.handle_state_changed. run_handler.
  rewrite Hp, Hv, Hm, Hs. reflexivity.
Qed.

Lemma power_update_touches_power_only_witness :
  (Sample.power_update !! Sample.CMD_POWER = Some (PyInt 1)
   /\ Sample.power_update !! Sample.CMD_VOLUME = None
   /\ Sample.power_update !! Sample.CMD_MUTE = None
   /\ Sample.power_update !! Sample.CMD_SOURCE = None)
  /\ ClientPlatform.device_state
       (final (ClientPlatform.handle_state_changed
                 Sample.CMD_POWER Sample.CMD_VOLUME Sample.CMD_MUTE
                 Sample.CMD_SOURCE Sample.power_update
                 (Sample.client_handler_at (-40))))
     = (STATE_ON, PyNum (40 # 70), PyNone, PyNone)
  /\ effects (ClientPlatform.handle_state_changed
                Sample.CMD_POWER Sample.CMD_VOLUME Sample.CMD_MUTE
                Sample.CMD_SOURCE Sample.power_update
                (Sample.client_handler_at (-40)))
     = [ClientPlatform.ScheduleUpdateHaState].
Proof.
  assert (Sample.power_update !! Sample.CMD_POWER = Some (PyInt 1)) as Hp
    by (vm_compute; reflexivity).
  assert (Sample.power_update !! Sample.CMD_VOLUME = None) as Hv
    by (vm_compute; reflexivity).
  assert (Sample.power_update !! Sample.CMD_MUTE = None) as Hm
    by (vm_compute; reflexivity).
  assert (Sample.power_update !! Sample.CMD_SOURCE = None) as Hs
    by (vm_compute; reflexivity).
  split; [auto|].
  destruct (power_update_touches_power_only
              Sample.CMD_POWER Sample.CMD_VOLUME Sample.CMD_MUTE
              Sample.CMD_SOURCE _ (PyInt 1) (Sample.client_handler_at (-40))
              Sample.protocol_handler Hp Hv Hm Hs)
    as ((Hrun & Hstate) & _).
  rewrite Hrun. split; [|reflexivity].
  unfold final. cbn [fst snd]. rewrite Hstate. vm_compute. reflexivity.
Defined.

(** On the client platform the power field is also written by an update
    that does not carry the power key: it goes back to [STATE_UNKNOWN]. *)
Example update_without_power_key :
  ClientPlatform.device_state
    (final (ClientPlatform.handle_state_changed
              Sample.CMD_POWER Sample.CMD_VOLUME Sample.CMD_MUTE
              Sample.CMD_SOURCE {[ Sample.CMD_VOLUME := PyInt (-10) ]}
              (final (ClientPlatform.handle_state_changed
                        Sample.CMD_POWER Sample.CMD_VOLUME Sample.CMD_MUTE
                        Sample.CMD_SOURCE Sample.power_update
                        Sample.client_handler))))
  = (STATE_UNKNOWN, PyNum (70 # 70), PyNone, PyNone).
Proof. vm_compute. reflexivity. Qed.

(** ** Who writes the device state *)

Module ClientHistory.
Import ClientPlatform.

Lemma client_serve_frame (c : command) (answer : result unit) (self : NADDevice) :
  final (serve c answer self) = self.
Proof.
  destruct c; cbn [serve];
    unfold async_turn_off, async_turn_on, async_volume_up, async_volume_down,
      async_set_volume_level, async_mute_volume, async_select_source,
      client_method, await;
    run_handler;
    try destruct (truthy mute_arg); run_handler;
    destruct (_client self); cbn; try reflexivity;
    try (destruct (internal_vol_to_nad_vol self _); reflexivity).
Qed.

Section Closures.
Variables CMD_POWER CMD_VOLUME CMD_MUTE CMD_SOURCE : string.
Local Abbreviation perform :=
  (perform CMD_POWER CMD_VOLUME CMD_MUTE CMD_SOURCE).
Local Abbreviation run := (run CMD_POWER CMD_VOLUME CMD_MUTE CMD_SOURCE).

Lemma other_ops_keep_view (o : op) (self : NADDevice) :
  is_update o = false -> view (final (perform o self)) = view self.
Proof using Type.
  destruct o as [c a|r a|a|a|st|st]; cbn [is_update ClientPlatform.perform];
    intros H; try discriminate H.
  - rewrite client_serve_frame. reflexivity.
  - unfold async_added_to_hass, connect_listener, client_method, await.
    run_handler. destruct r; cbn; [destruct a|]; reflexivity.
  - unfold connect_listener, client_method, await. run_handler.
    destruct (_client self); cbn; [destruct a|]; reflexivity.
  - unfold disconnect_listener, client_method, await. run_handler.
    destruct (_client self); reflexivity.
  - reflexivity.
Qed.

Lemma update_reads_view (st : gmap string pyval) (self1 self2 : NADDevice) :
  view self1 = view self2 ->
  view (final (handle_state_changed CMD_POWER CMD_VOLUME CMD_MUTE CMD_SOURCE
                 st self1))
  = view (final (handle_state_changed CMD_POWER CMD_VOLUME CMD_MUTE
                   CMD_SOURCE st self2)).
Proof using Type.
  destruct self1, self2. unfold view, device_state. cbn.
  intros H. injection H as -> -> -> -> -> ->.
  unfold handle_state_changed, nad_vol_to_internal_vol. run_handler.
  destruct (st !! CMD_POWER), (st !! CMD_VOLUME) as [v|]; cbn;
    try destruct (Volume.nad_vol_to_internal_vol _ _ v); cbn;
    destruct (st !! CMD_MUTE), (st !! CMD_SOURCE); cbn; reflexivity.
Qed.

(** The state after a history is the state after its updates alone. *)
Lemma client_run_reads_updates (ops : list op) (self1 self2 : NADDevice) :
  view self1 = view self2 ->
  view (run ops self1) = view (run (List.filter is_update ops) self2).
Proof using Type.
  revert self1 self2.
  induction ops as [|o ops IH]; intros self1 self2 E; [exact E|].
  cbn [ClientPlatform.run List.filter].
  destruct (is_update o) eqn:U.
  - cbn [ClientPlatform.run]. apply IH.
    destruct o; try discriminate U. cbn [ClientPlatform.perform].
    apply update_reads_view. exact E.
  - apply IH. rewrite other_ops_keep_view by exact U. exact E.
Qed.

(** Without an update the state stays what it was. *)
Lemma client_run_without_update (ops : list op) (self : NADDevice) :
  view (run (List.filter (fun o => negb (is_update o)) ops) self)
  = view self.
Proof using Type.
  revert self. induction ops as [|o ops IH]; intros self; [reflexivity|].
  cbn [List.filter]. destruct (is_update o) eqn:U; cbn [negb].
  - apply IH.
  - cbn [ClientPlatform.run]. rewrite IH.
    apply other_ops_keep_view. exact U.
Qed.
End Closures.
End ClientHistory.

Module ProtocolHistory.
Import ProtocolPlatform.

Lemma protocol_serve_frame (c : command) (answer : result unit) (self : NADDevice) :
  final (serve c answer self) = self.
Proof.
  destruct self as [pc [p|] ? ? ? ? ? ? ? ? ? ?];
    destruct c; cbn [serve]; try reflexivity.
  - unfold async_set_volume_level. run_handler.
    destruct (Volume.internal_vol_to_nad_vol _ _ _); reflexivity.
  - unfold async_mute_volume. run_handler.
    destruct (truthy mute_arg); reflexivity.
Qed.

Lemma other_ops_keep_state (o : op) (self : NADDevice) :
  is_update o = false ->
  device_state (final (perform o self)) = device_state self.
Proof.
  destruct o as [c a|a| |net|s exc|key value]; cbn [is_update perform];
    intros H; try discriminate H.
  - rewrite protocol_serve_frame. reflexivity.
  - destruct self as [pc [p|] ? ? ? ? ? ? ? ? ? ?]; reflexivity.
  - reflexivity.
  - unfold connect. run_handler.
    destruct net as [t p|exc]; [reflexivity|].
    destruct (caught exc); reflexivity.
  - unfold reconnect. run_handler.
    destruct (CoreState_eqb s stopping); reflexivity.
Qed.

Lemma update_reads_state (key : string) (value : pyval)
    (self1 self2 : NADDevice) :
  device_state self1 = device_state self2 ->
  device_state (final (message_received_callback key value self1))
  = device_state (final (message_received_callback key value self2)).
Proof.
  destruct self1, self2. unfold device_state. cbn.
  intros H. injection H as -> -> -> ->.
  unfold message_received_callback, message_received. run_handler.
  destruct (String.eqb key "Main.Volume"); [reflexivity|].
  destruct (String.eqb key "Main.Power"); [reflexivity|].
  destruct (String.eqb key "Main.Mute"); [reflexivity|].
  destruct (String.eqb key "Main.Source"); reflexivity.
Qed.

Lemma protocol_run_reads_updates (ops : list op) (self1 self2 : NADDevice) :
  device_state self1 = device_state self2 ->
  device_state (run ops self1)
  = device_state (run (List.filter is_update ops) self2).
Proof.
  revert self1 self2.
  induction ops as [|o ops IH]; intros self1 self2 E; [exact E|].
  cbn [run List.filter].
  destruct (is_update o) eqn:U.
  - cbn [run]. apply IH.
    destruct o; try discriminate U. cbn [perform].
    apply update_reads_state. exact E.
  - apply IH. rewrite other_ops_keep_state by exact U. exact E.
Qed.

Lemma protocol_run_without_update (ops : list op) (self : NADDevice) :
  device_state (run (List.filter (fun o => negb (is_update o)) ops) self)
  = device_state self.
Proof.
  revert self. induction ops as [|o ops IH]; intros self; [reflexivity|].
  cbn [List.filter]. destruct (is_update o) eqn:U; cbn [negb].
  - apply IH.
  - cbn [run]. rewrite IH. apply other_ops_keep_state. exact U.
Qed.
End ProtocolHistory.

(** C7: on both platforms the four fields of the device state start
    unknown ([STATE_UNKNOWN] or [None]); no service call (turn on or off,
    volume up, down or set, mute, select source) writes any of them,
    whatever the client or the protocol answers; and after every history
    of operations they are what the inbound updates of that history
    alone make of the initial values, so a history without an update
    leaves them unknown. *)
Theorem device_state_written_by_updates_only
    (CMD_POWER CMD_VOLUME CMD_MUTE CMD_SOURCE : string) (config : Config)
    (ops : list ClientPlatform.op) (history : list ProtocolPlatform.op) :
  (ClientPlatform.device_state (ClientPlatform.async_setup_platform config)
   = (STATE_UNKNOWN, PyNone, PyNone, PyNone)
   /\ (forall c answer self,
         ClientPlatform.device_state
           (final (ClientPlatform.serve c answer self))
         = ClientPlatform.device_state self)
   /\ ClientPlatform.device_state
        (ClientPlatform.run CMD_POWER CMD_VOLUME CMD_MUTE CMD_SOURCE ops
           (ClientPlatform.async_setup_platform config))
      = ClientPlatform.device_state
          (ClientPlatform.run CMD_POWER CMD_VOLUME CMD_MUTE CMD_SOURCE
             (List.filter ClientPlatform.is_update ops)
             (ClientPlatform.async_setup_platform config))
   /\ ClientPlatform.device_state
        (ClientPlatform.run CMD_POWER CMD_VOLUME CMD_MUTE CMD_SOURCE
           (List.filter (fun o => negb (ClientPlatform.is_update o)) ops)
           (ClientPlatform.async_setup_platform config))
      = (STATE_UNKNOWN, PyNone, PyNone, PyNone))
  /\ (ProtocolPlatform.device_state
        (ProtocolPlatform.async_setup_platform config)
      = (PyNone, PyNone, PyNone, PyNone)
      /\ (forall c answer self,
            ProtocolPlatform.device_state
              (final (ProtocolPlatform.serve c answer self))
            = ProtocolPlatform.device_state self)
      /\ ProtocolPlatform.device_state
           (ProtocolPlatform.run history
              (ProtocolPlatform.async_setup_platform config))
         = ProtocolPlatform.device_state
             (ProtocolPlatform.run
                (List.filter ProtocolPlatform.is_update history)
                (ProtocolPlatform.async_setup_platform config))
      /\ ProtocolPlatform.device_state
           (ProtocolPlatform.run
              (List.filter (fun o => negb (ProtocolPlatform.is_update o))
                           history)
              (ProtocolPlatform.async_setup_platform config))
         = (PyNone, PyNone, PyNone, PyNone)).
Proof.
  split; [split; [reflexivity|split; [|split]]
         |split; [reflexivity|split; [|split]]].
  - intros c answer self. rewrite ClientHistory.client_serve_frame. reflexivity.
  - pose proof (ClientHistory.client_run_reads_updates
                  CMD_POWER CMD_VOLUME CMD_MUTE CMD_SOURCE ops
                  (ClientPlatform.async_setup_platform config)
                  (ClientPlatform.async_setup_platform config) eq_refl) as H.
    unfold ClientPlatform.view in H. congruence.
  - pose proof (ClientHistory.client_run_without_update
                  CMD_POWER CMD_VOLUME CMD_MUTE CMD_SOURCE ops
                  (ClientPlatform.async_setup_platform config)) as H.
    unfold ClientPlatform.view in H.
    change (STATE_UNKNOWN, PyNone, PyNone, PyNone)
      with (ClientPlatform.device_state
              (ClientPlatform.async_setup_platform config)).
    congruence.
  - intros c answer self. rewrite ProtocolHistory.protocol_serve_frame. reflexivity.
  - apply ProtocolHistory.protocol_run_reads_updates. reflexivity.
  - apply ProtocolHistory.protocol_run_without_update.
Qed.

(** ** Connecting and reconnecting *)

Module LoopFacts.
Import ProtocolPlatform EventLoop.

(** *** What [connect] and [reconnect] do *)

Lemma connect_failed (exc : exn) (self : NADDevice) :
  connect (failed exc) self
  = if caught exc
    then (Ok PyNone, self,
          [Log log_info; CreateNadConnection (_host self); Log log_exception;
           CallLater (_reconnect_interval self) (call_reconnect exc)])
    else (Raise exc, self,
          [Log log_info; CreateNadConnection (_host self)]).
Proof.
  unfold connect. run_handler. destruct (caught exc); reflexivity.
Qed.

Lemma connect_established (t : Transport) (p : Protocol) (self : NADDevice) :
  connect (established t p) self
  = (Ok (PyBool true), with_protocol (Some p) self,
     [Log log_info; CreateNadConnection (_host self);
      AsyncAddJob job_async_update; ListenOnceStopClose t]).
Proof. reflexivity. Qed.

Lemma reconnect_runs (s : CoreState) (exc : option exn) (self : NADDevice) :
  reconnect s exc self
  = (Ok tt, with_protocol None self,
     if CoreState_eqb s stopping then []
     else [Log log_warning; AsyncAddJob job_connect]).
Proof.
  unfold reconnect. run_handler.
  destruct (CoreState_eqb s stopping); reflexivity.
Qed.

Lemma CoreState_eqb_eq (a b : CoreState) : CoreState_eqb a b = true <-> a = b.
Proof. destruct a, b; cbn; split; congruence. Qed.

(** *** The calls that the loop does not keep *)

Lemma absorb_quiet (es : list effect) (w : World) :
  forallb quiet es = true -> fold_left absorb es w = w.
Proof.
  revert w. induction es as [|e es IH]; intros w H; [reflexivity|].
  cbn in H. apply andb_prop in H as [He Hes].
  cbn [fold_left]. destruct e; try discriminate He; cbn [absorb]; auto.
Qed.

Lemma enact_quiet {A} (m : M A) (w : World) :
  forallb quiet (effects (m (handler w))) = true ->
  schedule (enact m w) = schedule w.
Proof.
  intros H. unfold enact. rewrite absorb_quiet by exact H. reflexivity.
Qed.

Lemma serve_quiet (c : command) (answer : result unit) (self : NADDevice) :
  forallb quiet (effects (serve c answer self)) = true.
Proof.
  destruct self as [pc [p|] ? ? ? ? ? ? ? ? ? ?];
    destruct c; cbn [serve]; try reflexivity.
  - unfold async_set_volume_level. run_handler.
    destruct (Volume.internal_vol_to_nad_vol _ _ _); reflexivity.
  - unfold async_mute_volume. run_handler.
    destruct (truthy mute_arg); reflexivity.
Qed.

Lemma async_update_quiet (answer : result unit) (self : NADDevice) :
  forallb quiet (effects (async_update answer self)) = true.
Proof.
  destruct self as [pc [p|] ? ? ? ? ? ? ? ? ? ?]; reflexivity.
Qed.

Lemma message_received_quiet (key : string) (value : pyval)
    (self : NADDevice) :
  forallb quiet (effects (message_received_callback key value self)) = true.
Proof.
  unfold message_received_callback, message_received. run_handler.
  destruct (String.eqb key "Main.Volume"); [reflexivity|].
  destruct (String.eqb key "Main.Power"); [reflexivity|].
  destruct (String.eqb key "Main.Mute"); [reflexivity|].
  destruct (String.eqb key "Main.Source"); reflexivity.
Qed.

(** *** One event, on the schedule *)

Lemma run_connect_failed (exc : exn) (answer : result unit)
    (rest : list job) (w : World) :
  ready w = job_connect :: rest ->
  schedule (step (RunJob (failed exc) answer) w)
  = (hass_state w, now w, rest,
     if caught exc
     then timers w ++ [(now w + _reconnect_interval (handler w),
                        call_reconnect exc)]
     else timers w,
     connection w, attempts w ++ [now w]).
Proof.
  intros Hr. cbn [step]. rewrite Hr. unfold enact.
  cbn [handler with_ready]. rewrite connect_failed.
  destruct (caught exc); reflexivity.
Qed.

Lemma run_connect_established (t : Transport) (p : Protocol)
    (answer : result unit) (rest : list job) (w : World) :
  ready w = job_connect :: rest ->
  schedule (step (RunJob (established t p) answer) w)
  = (hass_state w, now w, rest ++ [job_async_update], timers w, Some t,
     attempts w ++ [now w]).
Proof.
  intros Hr. cbn [step]. rewrite Hr. reflexivity.
Qed.

Lemma run_update (net : attempt) (answer : result unit)
    (rest : list job) (w : World) :
  ready w = job_async_update :: rest ->
  schedule (step (RunJob net answer) w)
  = (hass_state w, now w, rest, timers w, connection w, attempts w).
Proof.
  intros Hr. cbn [step]. rewrite Hr.
  rewrite enact_quiet by apply async_update_quiet. reflexivity.
Qed.

Lemma run_nothing (net : attempt) (answer : result unit) (w : World) :
  ready w = [] -> step (RunJob net answer) w = w.
Proof. intros Hr. cbn [step]. rewrite Hr. reflexivity. Qed.

Lemma fire_timer (i : nat) (due : Z) (exc : exn) (w : World) :
  timers w !! i = Some (due, call_reconnect exc) ->
  schedule (step (FireTimer i) w)
  = (hass_state w, Z.max (now w) due,
     if CoreState_eqb (hass_state w) stopping then ready w
     else ready w ++ [job_connect],
     delete i (timers w), connection w, attempts w).
Proof.
  intros Ht. cbn [step]. rewrite Ht. unfold enact. rewrite reconnect_runs.
  destruct (CoreState_eqb (hass_state w) stopping); reflexivity.
Qed.

Lemma fire_nothing (i : nat) (w : World) :
  timers w !! i = None -> step (FireTimer i) w = w.
Proof. intros Ht. cbn [step]. rewrite Ht. reflexivity. Qed.

Lemma connection_lost (exc : option exn) (t : Transport) (w : World) :
  connection w = Some t ->
  schedule (step (ConnectionLost exc) w)
  = (hass_state w, now w,
     if CoreState_eqb (hass_state w) stopping then ready w
     else ready w ++ [job_connect],
     timers w, None, attempts w).
Proof.
  intros Hc. cbn [step]. rewrite Hc. unfold enact. rewrite reconnect_runs.
  destruct (CoreState_eqb (hass_state w) stopping); reflexivity.
Qed.

Lemma other_events (ev : event) (w : World) :
  match ev with
  | RunJob _ _ | FireTimer _ => False
  | ConnectionLost _ => connection w = None
  | Receive _ _ | Serve _ _ => True
  | CoreStateChange _ | Elapse _ => False
  end ->
  schedule (step ev w) = schedule w.
Proof.
  destruct ev; try contradiction; cbn [step].
  - intros ->. reflexivity.
  - intros _. destruct (connection w); [|reflexivity].
    apply enact_quiet, message_received_quiet.
  - intros _. apply enact_quiet, serve_quiet.
Qed.
End LoopFacts.

Module LoopInvariants.
Import ProtocolPlatform EventLoop LoopFacts.

Lemma schedule_fields (w : World) s n r t c a :
  schedule w = (s, n, r, t, c, a) ->
  hass_state w = s /\ now w = n /\ ready w = r /\ timers w = t
  /\ connection w = c /\ attempts w = a.
Proof. unfold schedule. intros H. injection H. auto 10. Qed.

Lemma pending_schedule (w1 w2 : World) :
  schedule w1 = schedule w2 ->
  pending w1 = pending w2 /\ attempts w1 = attempts w2.
Proof.
  unfold schedule, pending. intros H.
  injection H as _ _ -> -> -> ->. auto.
Qed.

Ltac fields H :=
  apply schedule_fields in H;
  destruct H as (?Hs & ?Hn & ?Hr & ?Ht & ?Hc & ?Ha).

Lemma connect_jobs_app (js : list job) (j : job) :
  length (List.filter is_connect (js ++ [j]))
  = (length (List.filter is_connect js) + if is_connect j then 1 else 0)%nat.
Proof.
  rewrite List.filter_app, List.length_app. cbn.
  destruct (is_connect j); reflexivity.
Qed.

(** No event adds to what is pending, and with nothing pending no event
    attempts a connection. *)
Lemma pending_step (ev : event) (w : World) :
  (pending (step ev w) <= pending w)%nat
  /\ (pending w = 0%nat -> attempts (step ev w) = attempts w).
Proof.
  destruct ev as [net answer|i|exc|key value|c answer|s|dt].
  - destruct (ready w) as [|[|] rest] eqn:Hr.
    + rewrite run_nothing by exact Hr. auto.
    + assert (pending w <> 0%nat) as Hp
        by (unfold pending; rewrite Hr; cbn; lia).
      split; [|intros H; contradiction].
      destruct net as [t p|exc].
      * pose proof (run_connect_established t p answer rest w Hr) as H.
        fields H. unfold pending. rewrite Hr, Hr0, Ht, Hc, connect_jobs_app.
        cbn. destruct (connection w); lia.
      * pose proof (run_connect_failed exc answer rest w Hr) as H.
        fields H. unfold pending. rewrite Hr, Hr0, Ht, Hc.
        destruct (caught exc); [rewrite List.length_app|]; cbn; lia.
    + pose proof (run_update net answer rest w Hr) as H. fields H.
      unfold pending. rewrite Hr, Hr0, Ht, Hc. cbn. auto with lia.
  - destruct (timers w !! i) as [[due [exc]]|] eqn:Hi.
    + pose proof (fire_timer i due exc w Hi) as H. fields H.
      assert (length (delete i (timers w)) = (length (timers w) - 1)%nat)
        as Hd by (apply length_delete; eauto).
      pose proof (lookup_lt_Some _ _ _ Hi) as Hlt.
      split; [|intros _; exact Ha].
      unfold pending. rewrite Hr, Ht, Hc, Hd.
      destruct (CoreState_eqb (hass_state w) stopping);
        [|rewrite connect_jobs_app; cbn]; lia.
    + rewrite fire_nothing by exact Hi. auto.
  - destruct (connection w) as [t|] eqn:Hcw.
    + pose proof (connection_lost exc t w Hcw) as H. fields H.
      split; [|intros _; exact Ha].
      unfold pending. rewrite Hr, Ht, Hc, Hcw.
      destruct (CoreState_eqb (hass_state w) stopping);
        [|rewrite connect_jobs_app; cbn]; lia.
    + destruct (pending_schedule _ _
                  (other_events (ConnectionLost exc) w Hcw)) as [-> ->].
      auto.
  - destruct (pending_schedule _ _ (other_events (Receive key value) w I))
      as [-> ->]. auto.
  - destruct (pending_schedule _ _ (other_events (Serve c answer) w I))
      as [-> ->]. auto.
  - cbn. auto.
  - cbn. auto.
Qed.

Lemma pending_exec (evs : list event) (w : World) :
  (pending (exec evs w) <= pending w)%nat.
Proof.
  revert w. induction evs as [|ev evs IH]; intros w; [reflexivity|].
  cbn [exec]. etransitivity; [apply IH|]. apply pending_step.
Qed.

(** With nothing pending, no history attempts a connection. *)
Lemma quiescent (evs : list event) (w : World) :
  pending w = 0%nat -> attempts (exec evs w) = attempts w.
Proof.
  revert w. induction evs as [|ev evs IH]; intros w H; [reflexivity|].
  cbn [exec]. destruct (pending_step ev w) as [Hle Hat].
  rewrite IH by lia. auto.
Qed.

Lemma pending_boot (config : Config) (s : CoreState) (t0 : Z) :
  pending (boot config s t0) = 1%nat.
Proof. reflexivity. Qed.

(** In every world of a history at most one thing is pending. *)
Lemma pending_reachable (config : Config) (s : CoreState) (t0 : Z)
    (evs : list event) :
  (pending (exec evs (boot config s t0)) <= 1)%nat.
Proof.
  pose proof (pending_exec evs (boot config s t0)) as H.
  rewrite pending_boot in H. exact H.
Qed.

(** A connection lost while Home Assistant is stopping leaves nothing
    pending. *)
Lemma lost_while_stopping (exc : option exn) (w : World) :
  (pending w <= 1)%nat ->
  connection w <> None ->
  hass_state w = stopping ->
  pending (step (ConnectionLost exc) w) = 0%nat
  /\ attempts (step (ConnectionLost exc) w) = attempts w.
Proof.
  intros Hp Hcw Hst. destruct (connection w) as [t|] eqn:Hc0; [|congruence].
  pose proof (connection_lost exc t w Hc0) as H. fields H.
  rewrite Hst in Hr. cbn [CoreState_eqb] in Hr.
  split; [|exact Ha].
  unfold pending in *. rewrite Hr, Ht, Hc. rewrite Hc0 in Hp. lia.
Qed.

(** *** Not before the deadline *)



End LoopInvariants.

Module LoopConfig.
Import ProtocolPlatform EventLoop LoopFacts.

Lemma absorb_handler (es : list effect) (w : World) :
  handler (fold_left absorb es w) = handler w.
Proof.
  revert w. induction es as [|e es IH]; intros w; [reflexivity|].
  cbn [fold_left]. rewrite IH. destruct e; reflexivity.
Qed.

Lemma enact_handler {A} (m : M A) (w : World) :
  handler (enact m w) = final (m (handler w)).
Proof. unfold enact. rewrite absorb_handler. reflexivity. Qed.



End LoopConfig.



(** An exception that the [except] clause does not name leaves
    [connect], and nothing is scheduled. *)
Example connect_other_error_raises :
  ProtocolPlatform.connect (ProtocolPlatform.failed ValueError)
                           Sample.protocol_handler
  = (Raise ValueError, Sample.protocol_handler,
     [ProtocolPlatform.Log ProtocolPlatform.log_info;
      ProtocolPlatform.CreateNadConnection "192.168.1.20"]).
Proof. reflexivity. Qed.

(** The scenario of C5 with an interval of 10: the attempt at time 0 is
    refused, the callback fires at its deadline, and the second attempt
    is made at time 10; the attempts are those two. *)
Example retry_after_ten_units :
  EventLoop.attempts
    (EventLoop.exec
       [EventLoop.RunJob
          (ProtocolPlatform.failed ConnectionRefusedError) (Ok tt);
        EventLoop.FireTimer 0;
        EventLoop.RunJob
          (ProtocolPlatform.established
             (ProtocolPlatform.transport 1) Sample.protocol) (Ok tt)]
       Sample.world)
  = [0; 10].
Proof. reflexivity. Qed.

(** C6: when the connection is lost while Home Assistant is stopping,
    [reconnect] forgets the protocol and schedules nothing, where in any
    other core state it gives [connect] to the loop; in every world of a
    history of the handler nothing that leads to a connection attempt is
    then left, so that, whatever happens afterwards, no connection is
    attempted any more.  On the client platform the listener of the stop
    event asks the client to disconnect and makes no other call. *)
Theorem no_attempt_after_disconnect_while_stopping
    (config : Config) (s0 : CoreState) (t0 : Z)
    (before : list EventLoop.event) (exc : option exn)
    (after : list EventLoop.event) :
  EventLoop.connection (EventLoop.exec before (EventLoop.boot config s0 t0))
  <> None ->
  EventLoop.hass_state (EventLoop.exec before (EventLoop.boot config s0 t0))
  = stopping ->
  (forall self : ProtocolPlatform.NADDevice,
      ProtocolPlatform.reconnect stopping exc self
      = (Ok tt, ProtocolPlatform.with_protocol None self, []))
  /\ (forall (s : CoreState) (self : ProtocolPlatform.NADDevice),
        s <> stopping ->
        ProtocolPlatform.reconnect s exc self
        = (Ok tt, ProtocolPlatform.with_protocol None self,
           [ProtocolPlatform.Log ProtocolPlatform.log_warning;
            ProtocolPlatform.AsyncAddJob ProtocolPlatform.job_connect]))
  /\ EventLoop.attempts
       (EventLoop.exec after
          (EventLoop.step (EventLoop.ConnectionLost exc)
             (EventLoop.exec before (EventLoop.boot config s0 t0))))
     = EventLoop.attempts
         (EventLoop.exec before (EventLoop.boot config s0 t0))
  /\ (forall (other : ClientPlatform.NADDevice) (c : ClientPlatform.Client)
             (answer : result unit),
        ClientPlatform._client other = Some c ->
        ClientPlatform.disconnect_listener answer other
        = (answer, other,
           [ClientPlatform.Await ClientPlatform.disconnect])).
Proof.
  intros Hopen Hstop. split; [|split; [|split]].
  - intros self. apply LoopFacts.reconnect_runs.
  - intros s self Hs. rewrite LoopFacts.reconnect_runs.
    destruct (CoreState_eqb s stopping) eqn:E; [|reflexivity].
    apply LoopFacts.CoreState_eqb_eq in E. contradiction.
  - destruct (LoopInvariants.lost_while_stopping
                exc _ (LoopInvariants.pending_reachable config s0 t0 before)
                Hopen Hstop) as [Hzero Hsame].
    rewrite LoopInvariants.quiescent by exact Hzero. exact Hsame.
  - intros other c answer Hc.
    unfold ClientPlatform.disconnect_listener, ClientPlatform.client_method,
      ClientPlatform.await.
    run_handler. rewrite Hc. reflexivity.
Qed.

Lemma no_attempt_after_disconnect_while_stopping_witness :
  EventLoop.connection (EventLoop.exec Sample.until_stopping Sample.world)
  <> None
  /\ EventLoop.hass_state (EventLoop.exec Sample.until_stopping Sample.world)
     = stopping
  /\ EventLoop.attempts
       (EventLoop.exec Sample.after_stopping
          (EventLoop.step (EventLoop.ConnectionLost None)
             (EventLoop.exec Sample.until_stopping Sample.world)))
     = [0].
Proof.
  assert (EventLoop.connection
            (EventLoop.exec Sample.until_stopping
               (EventLoop.boot Sample.config running 0)) <> None) as Hopen
    by (vm_compute; discriminate).
  assert (EventLoop.hass_state
            (EventLoop.exec Sample.until_stopping
               (EventLoop.boot Sample.config running 0)) = stopping) as Hstop
    by reflexivity.
  split; [exact Hopen|]. split; [exact Hstop|].
  destruct (no_attempt_after_disconnect_while_stopping
              Sample.config running 0 Sample.until_stopping None
              Sample.after_stopping Hopen Hstop)
    as (_ & _ & Hnone & _).
  unfold Sample.world. rewrite Hnone. reflexivity.
Defined.

(** * Further properties of the code *)

(** ** The conversion, for every configuration and every value *)

Lemma inject_Z_eq (a b : Z) : (inject_Z a == inject_Z b)%Q -> a = b.
Proof. intros H. unfold Qeq in H. cbn in H. lia. Qed.

Lemma round_monotone (x y : Q) : (x <= y)%Q -> round x <= round y.
Proof.
  intros H. pose proof (Qfloor_resp_le _ _ H) as F.
  destruct (floor_bounds x) as [Lx Ux], (floor_bounds y) as [Ly Uy].
  destruct (Z.eq_dec (Qfloor x) (Qfloor y)) as [E|N].
  - unfold round. cbv zeta. rewrite <- E.
    destruct (x - inject_Z (Qfloor x) ?= 1 # 2)%Q eqn:Cx;
      destruct (y - inject_Z (Qfloor x) ?= 1 # 2)%Q eqn:Cy;
      first [apply Qeq_alt in Cx | apply Qlt_alt in Cx | apply Qgt_alt in Cx];
      first [apply Qeq_alt in Cy | apply Qlt_alt in Cy | apply Qgt_alt in Cy];
      destruct (Z.even (Qfloor x)); cbv beta iota; try lia; exfalso; lra.
  - destruct (round_cases x) as [[-> _]|[-> _]],
             (round_cases y) as [[-> _]|[-> _]]; lia.
Qed.


(** A [bool] is converted as the number it counts for. *)
Lemma to_internal_as_number (min_vol max_vol : Z) (v : pyval) (n : Q) :
  as_number v = Ok n ->
  Volume.nad_vol_to_internal_vol min_vol max_vol v
  = Volume.nad_vol_to_internal_vol min_vol max_vol (PyNum n).
Proof.
  destruct v as [|b|q|s]; cbn; intros H; try discriminate H;
    injection H as <-; reflexivity.
Qed.

(** A level that is returned lies between 0 and 1, whatever the bounds. *)
Lemma nad_vol_to_internal_vol_level_bounds
    (min_vol max_vol : Z) (v : pyval) :
  match Volume.nad_vol_to_internal_vol min_vol max_vol v with
  | Ok q => (0 <= q)%Q /\ (q <= 1)%Q
  | Raise _ => True
  end.
Proof.
  assert (forall n : Q,
             match Volume.nad_vol_to_internal_vol min_vol max_vol (PyNum n)
             with
             | Ok q => (0 <= q)%Q /\ (q <= 1)%Q
             | Raise _ => True
             end) as number.
  { intros n. cbn.
    destruct (Qltb n (inject_Z min_vol)) eqn:B; [split; lra|].
    destruct (Qltb (inject_Z max_vol) n) eqn:A; [split; lra|].
    apply Qltb_ge in B, A. unfold truediv.
    destruct (Qeq_bool (inject_Z max_vol - inject_Z min_vol) 0) eqn:Z0;
      [exact I|].
    apply Qeq_bool_neq in Z0.
    assert (min_vol < max_vol) as range.
    { apply Z.le_neq. split.
      - rewrite Zle_Qle. lra.
      - intros ->. apply Z0. ring. }
    apply (level_within_unit _ _ range); assumption. }
  destruct v as [|b|q|s].
  - cbn. split; lra.
  - rewrite (to_internal_as_number _ _ (PyBool b) _ eq_refl). apply number.
  - apply number.
  - exact I.
Qed.

(** X1: whatever the configured bounds and whatever the value,
    [nad_vol_to_internal_vol] either returns a level between 0 and 1,
    or raises [TypeError] on a [str], or raises [ZeroDivisionError] on
    the number that equals both bounds of an empty range; a [str] always
    raises, and so does the one volume of an empty range. *)
Theorem nad_vol_to_internal_vol_outcome
    (min_vol max_vol : Z) (nad_vol : pyval) (s : string) :
  match Volume.nad_vol_to_internal_vol min_vol max_vol nad_vol with
  | Ok q => (0 <= q)%Q /\ (q <= 1)%Q
  | Raise e =>
      (e = TypeError /\ exists s', nad_vol = PyStr s')
      \/ (e = ZeroDivisionError /\ min_vol = max_vol
          /\ exists n, as_number nad_vol = Ok n /\ (n == inject_Z min_vol)%Q)
  end
  /\ Volume.nad_vol_to_internal_vol min_vol max_vol (PyStr s)
     = Raise TypeError
  /\ Volume.nad_vol_to_internal_vol min_vol min_vol (PyInt min_vol)
     = Raise ZeroDivisionError.
Proof.
  split; [|split].
  - assert (forall n : Q,
               match Volume.nad_vol_to_internal_vol min_vol max_vol (PyNum n)
               with
               | Ok q => (0 <= q)%Q /\ (q <= 1)%Q
               | Raise e =>
                   e = ZeroDivisionError /\ min_vol = max_vol
                   /\ (n == inject_Z min_vol)%Q
               end) as number.
    { intros n. cbn.
      destruct (Qltb n (inject_Z min_vol)) eqn:B; [split; lra|].
      destruct (Qltb (inject_Z max_vol) n) eqn:A; [split; lra|].
      apply Qltb_ge in B, A. unfold truediv.
      destruct (Qeq_bool (inject_Z max_vol - inject_Z min_vol) 0) eqn:Z0.
      - apply Qeq_bool_iff in Z0.
        assert (inject_Z max_vol == inject_Z min_vol)%Q as E by lra.
        apply inject_Z_eq in E. subst max_vol.
        split; [reflexivity|]. split; [reflexivity|]. lra.
      - apply Qeq_bool_neq in Z0.
        assert (min_vol < max_vol) as range.
        { apply Z.le_neq. split.
          - rewrite Zle_Qle. lra.
          - intros ->. apply Z0. ring. }
        apply (level_within_unit _ _ range); assumption. }
    destruct nad_vol as [|b|q|s'].
    + cbn. split; lra.
    + rewrite (to_internal_as_number _ _ (PyBool b) _ eq_refl).
      specialize (number (if b then 1%Q else 0%Q)).
      destruct (Volume.nad_vol_to_internal_vol _ _ _); [exact number|].
      right. destruct number as (-> & -> & E). repeat split.
      eexists. split; [reflexivity|exact E].
    + specialize (number q).
      destruct (Volume.nad_vol_to_internal_vol _ _ _); [exact number|].
      right. destruct number as (-> & -> & E). repeat split.
      eexists. split; [reflexivity|exact E].
    + cbn. left. split; [reflexivity|]. eexists. reflexivity.
  - reflexivity.
  - cbn. unfold Qltb, truediv.
    assert (Qle_bool (inject_Z min_vol) (inject_Z min_vol) = true) as ->
      by (apply Qle_bool_iff; lra).
    cbn.
    assert (Qeq_bool (inject_Z min_vol - inject_Z min_vol) 0 = true) as ->
      by (apply Qeq_bool_iff; ring).
    reflexivity.
Qed.

(** X2: with [min_vol < max_vol], [nad_vol_to_internal_vol] is
    non-decreasing: a louder device volume never gets a lower level. *)
Theorem nad_vol_to_internal_vol_monotone (min_vol max_vol : Z) (a b : Q) :
  min_vol < max_vol ->
  (a <= b)%Q ->
  exists qa qb : Q,
    Volume.nad_vol_to_internal_vol min_vol max_vol (PyNum a) = Ok qa
    /\ Volume.nad_vol_to_internal_vol min_vol max_vol (PyNum b) = Ok qb
    /\ (qa <= qb)%Q.
Proof.
  intros range Hab. pose proof (span_positive _ _ range) as P.
  destruct (Qlt_le_dec a (inject_Z min_vol)) as [Ba|La].
  - destruct (to_internal_number _ _ range b) as (qb & Eb & Lb & _).
    exists 0%Q, qb. rewrite to_internal_below by exact Ba. auto.
  - destruct (Qlt_le_dec (inject_Z max_vol) b) as [Ab|Ub].
    + destruct (to_internal_number _ _ range a) as (qa & Ea & _ & Ua).
      exists qa, 1%Q. rewrite (to_internal_above _ _ range b Ab). auto.
    + assert (a <= inject_Z max_vol)%Q as Ua by lra.
      assert (inject_Z min_vol <= b)%Q as Lb by lra.
      eexists. eexists.
      rewrite (to_internal_within _ _ range a La Ua).
      rewrite (to_internal_within _ _ range b Lb Ub).
      split; [reflexivity|]. split; [reflexivity|].
      apply Qmult_le_compat_r; [lra|].
      apply Qlt_le_weak, Qinv_lt_0_compat. exact P.
Qed.

Lemma nad_vol_to_internal_vol_monotone_witness :
  -80 < -10 /\ (-45 <= -30)%Q /\
  exists qa qb : Q,
    Volume.nad_vol_to_internal_vol (-80) (-10) (PyNum (-45)) = Ok qa
    /\ Volume.nad_vol_to_internal_vol (-80) (-10) (PyNum (-30)) = Ok qb
    /\ (qa <= qb)%Q.
Proof.
  assert (-80 < -10) as range by lia.
  assert (-45 <= -30)%Q as order by (vm_compute; discriminate).
  split; [exact range|]. split; [exact order|].
  exact (nad_vol_to_internal_vol_monotone (-80) (-10) (-45) (-30) range order).
Defined.

(** X3: with [min_vol < max_vol], the outbound conversion is
    non-decreasing in the level and is not clamped: a level of at most 0
    gives a volume of at most [min_vol], a level of at least 1 a volume of
    at least [max_vol]. *)
Theorem internal_vol_to_nad_vol_monotone (min_vol max_vol : Z) (qa qb : Q) :
  min_vol < max_vol ->
  (qa <= qb)%Q ->
  exists na nb : Z,
    Volume.internal_vol_to_nad_vol min_vol max_vol (PyNum qa) = Ok na
    /\ Volume.internal_vol_to_nad_vol min_vol max_vol (PyNum qb) = Ok nb
    /\ na <= nb
    /\ ((qb <= 0)%Q -> nb <= min_vol)
    /\ ((1 <= qa)%Q -> max_vol <= na).
Proof.
  intros range Hab. pose proof (span_positive _ _ range) as P.
  eexists. eexists. split; [reflexivity|]. split; [reflexivity|].
  split; [|split].
  - apply round_monotone. nra.
  - intros H. transitivity (round (inject_Z min_vol)).
    + apply round_monotone. nra.
    + rewrite round_inject_Z. lia.
  - intros H. transitivity (round (inject_Z max_vol)).
    + rewrite round_inject_Z. lia.
    + apply round_monotone. nra.
Qed.

Lemma internal_vol_to_nad_vol_monotone_witness :
  -80 < -10 /\ (1 <= 11 # 10)%Q /\
  exists na nb : Z,
    Volume.internal_vol_to_nad_vol (-80) (-10) (PyNum 1) = Ok na
    /\ Volume.internal_vol_to_nad_vol (-80) (-10) (PyNum (11 # 10)) = Ok nb
    /\ na <= nb /\ -10 <= na.
Proof.
  assert (-80 < -10) as range by lia.
  assert (1 <= 11 # 10)%Q as order by (vm_compute; discriminate).
  split; [exact range|]. split; [exact order|].
  destruct (internal_vol_to_nad_vol_monotone (-80) (-10) 1 (11 # 10)
              range order) as (na & nb & Ea & Eb & Hle & _ & Hmax).
  exists na, nb. repeat split; try assumption.
  apply Hmax. lra.
Defined.



(** ** The client platform: service calls *)

Module ClientMore.
Import ClientPlatform.

Ltac unfold_services :=
  unfold async_turn_off, async_turn_on, async_volume_up, async_volume_down,
    async_set_volume_level, async_mute_volume, async_select_source,
    connect_listener, disconnect_listener, client_method, await.


Lemma serve_with_client (c : command) (answer : result unit)
    (self : NADDevice) (cl : Client) :
  _client self = Some cl ->
  (exists k, serve c answer self = (answer, self, [Await k]))
  \/ (serve c answer self = (Raise TypeError, self, [])
      /\ (c = VolumeUp \/ c = VolumeDown \/ exists v, c = SetVolumeLevel v)).
Proof.
  intros Hc.
  assert (forall v, internal_vol_to_nad_vol self v = Raise TypeError
                    \/ exists n, internal_vol_to_nad_vol self v = Ok n)
    as conv.
  { intros v. unfold internal_vol_to_nad_vol, Volume.internal_vol_to_nad_vol.
    destruct v; cbn; eauto. }
  destruct c; cbn [serve]; unfold_services; run_handler;
    try destruct (truthy mute_arg); run_handler; rewrite Hc; cbn;
    try (left; eexists; reflexivity).
  - destruct (conv (volume_level self)) as [E|[n E]]; rewrite E; cbn;
      [right; auto | left; eexists; reflexivity].
  - destruct (conv (volume_level self)) as [E|[n E]]; rewrite E; cbn;
      [right; auto | left; eexists; reflexivity].
  - destruct (conv volume) as [E|[n E]]; rewrite E; cbn;
      [right; eauto | left; eexists; reflexivity].
Qed.

Lemma view_fields (self1 self2 : NADDevice) :
  view self1 = view self2 ->
  _state self1 = _state self2 /\ _volume self1 = _volume self2
  /\ _muted self1 = _muted self2 /\ _source self1 = _source self2
  /\ _min_vol self1 = _min_vol self2 /\ _max_vol self1 = _max_vol self2.
Proof.
  unfold view, device_state. intros H. injection H. intros.
  repeat split; assumption.
Qed.

Lemma settings_fields (self1 self2 : NADDevice) :
  client_settings self1 = client_settings self2 ->
  _min_vol self1 = _min_vol self2 /\ _max_vol self1 = _max_vol self2
  /\ _volume_step self1 = _volume_step self2.
Proof.
  unfold client_settings. intros H. injection H. intros.
  repeat split; assumption.
Qed.

Section Closures.
Variables CMD_POWER CMD_VOLUME CMD_MUTE CMD_SOURCE : string.
Local Abbreviation handle_state_changed :=
  (handle_state_changed CMD_POWER CMD_VOLUME CMD_MUTE CMD_SOURCE).
Local Abbreviation perform :=
  (perform CMD_POWER CMD_VOLUME CMD_MUTE CMD_SOURCE).
Local Abbreviation run := (run CMD_POWER CMD_VOLUME CMD_MUTE CMD_SOURCE).

Lemma run_app (ops1 ops2 : list op) (self : NADDevice) :
  run (ops1 ++ ops2) self = run ops2 (run ops1 self).
Proof using Type.
  revert self. induction ops1 as [|o ops1 IH]; intros self; [reflexivity|].
  cbn [app ClientPlatform.run]. apply IH.
Qed.

(** The power field after an update is read off the update alone. *)
Lemma handle_state_changed_state (st : gmap string pyval) (self : NADDevice) :
  _state (final (handle_state_changed st self))
  = match st !! CMD_POWER with
    | Some v => if truthy v then STATE_ON else STATE_OFF
    | None => STATE_UNKNOWN
    end.
Proof using Type.
  unfold ClientPlatform.handle_state_changed. run_handler.
  destruct (st !! CMD_POWER), (st !! CMD_VOLUME) as [v|]; cbn;
    try destruct (nad_vol_to_internal_vol _ v); cbn;
    destruct (st !! CMD_MUTE), (st !! CMD_SOURCE); cbn; reflexivity.
Qed.

(** The level stored by an update is the stored one or a converted one. *)
Lemma handle_state_changed_level (st : gmap string pyval) (self : NADDevice) :
  _volume (final (handle_state_changed st self)) = _volume self
  \/ exists v q, nad_vol_to_internal_vol self v = Ok q
                 /\ _volume (final (handle_state_changed st self)) = PyNum q.
Proof using Type.
  destruct (st !! CMD_VOLUME) as [v|] eqn:Hv.
  - destruct (nad_vol_to_internal_vol self v) as [q|e] eqn:E.
    + right. exists v, q. split; [exact E|].
      apply (ClientFacts.handle_state_changed_volume _ _ _ _ st self v q Hv E).
    + left. unfold ClientPlatform.handle_state_changed. run_handler.
      rewrite Hv. unfold nad_vol_to_internal_vol in *.
      destruct (st !! CMD_POWER); cbn in *; rewrite E; reflexivity.
  - left. unfold ClientPlatform.handle_state_changed. run_handler.
    rewrite Hv.
    destruct (st !! CMD_POWER); cbn;
      destruct (st !! CMD_MUTE), (st !! CMD_SOURCE); reflexivity.
Qed.

(** After an update that carries a number as volume, the stored level
    converts back to an integer of the range. *)
Lemma base_after_number (st : gmap string pyval) (self : NADDevice)
    (v : pyval) (n : Q) :
  _min_vol self < _max_vol self ->
  st !! CMD_VOLUME = Some v ->
  as_number v = Ok n ->
  exists b : Z,
    internal_vol_to_nad_vol
      (final (handle_state_changed st self))
      (volume_level (final (handle_state_changed st self))) = Ok b
    /\ _min_vol self <= b <= _max_vol self.
Proof using Type.
  intros range Hv Hn.
  destruct (to_internal_number _ _ range n) as (q & Hq & L & U).
  rewrite <- (to_internal_as_number _ _ v n Hn) in Hq.
  destruct (ClientFacts.handle_state_changed_frame
              CMD_POWER CMD_VOLUME CMD_MUTE CMD_SOURCE st self)
    as (_ & Emin & Emax & _).
  unfold internal_vol_to_nad_vol, volume_level. rewrite Emin, Emax.
  rewrite (ClientFacts.handle_state_changed_volume
             CMD_POWER CMD_VOLUME CMD_MUTE CMD_SOURCE st self v q Hv Hq).
  eexists. split; [reflexivity|].
  apply (to_nad_unit _ _ range q L U).
Qed.

Lemma other_ops_keep_settings (o : op) (self : NADDevice) :
  client_settings (final (perform o self)) = client_settings self.
Proof using Type.
  destruct o as [c a|r a|a|a|st|st]; cbn [ClientPlatform.perform].
  - rewrite ClientHistory.client_serve_frame. reflexivity.
  - unfold async_added_to_hass. unfold_services.
    run_handler. destruct r; cbn; [destruct a|]; reflexivity.
  - unfold_services. run_handler.
    destruct (_client self); cbn; [destruct a|]; reflexivity.
  - unfold_services. run_handler.
    destruct (_client self); reflexivity.
  - reflexivity.
  - unfold ClientPlatform.handle_state_changed. run_handler.
    destruct (st !! CMD_POWER), (st !! CMD_VOLUME) as [v|]; cbn;
      try destruct (nad_vol_to_internal_vol _ v); cbn;
      destruct (st !! CMD_MUTE), (st !! CMD_SOURCE); cbn; reflexivity.
Qed.

Lemma run_keeps_settings (ops : list op) (self : NADDevice) :
  client_settings (run ops self) = client_settings self.
Proof using Type.
  revert self. induction ops as [|o ops IH]; intros self; [reflexivity|].
  cbn [ClientPlatform.run]. rewrite IH. apply other_ops_keep_settings.
Qed.
End Closures.
End ClientMore.



(** X6: until the first inbound update the client platform never sends
    a volume when the volume is stepped: after every history without an
    update, [async_volume_up] and [async_volume_down] raise
    ([AttributeError] without a client, [TypeError] on the unknown
    volume) and make no call. *)
Theorem no_volume_step_before_first_update
    (CMD_POWER CMD_VOLUME CMD_MUTE CMD_SOURCE : string) (config : Config)
    (ops : list ClientPlatform.op) (answer : result unit) :
  (ClientPlatform.async_volume_up answer
     (ClientPlatform.run CMD_POWER CMD_VOLUME CMD_MUTE CMD_SOURCE
        (client_others ops) (ClientPlatform.async_setup_platform config))
   = (Raise AttributeError,
      ClientPlatform.run CMD_POWER CMD_VOLUME CMD_MUTE CMD_SOURCE
        (client_others ops) (ClientPlatform.async_setup_platform config), [])
   \/ ClientPlatform.async_volume_up answer
        (ClientPlatform.run CMD_POWER CMD_VOLUME CMD_MUTE CMD_SOURCE
           (client_others ops) (ClientPlatform.async_setup_platform config))
      = (Raise TypeError,
         ClientPlatform.run CMD_POWER CMD_VOLUME CMD_MUTE CMD_SOURCE
           (client_others ops) (ClientPlatform.async_setup_platform config),
         []))
  /\ (ClientPlatform.async_volume_down answer
        (ClientPlatform.run CMD_POWER CMD_VOLUME CMD_MUTE CMD_SOURCE
           (client_others ops) (ClientPlatform.async_setup_platform config))
      = (Raise AttributeError,
         ClientPlatform.run CMD_POWER CMD_VOLUME CMD_MUTE CMD_SOURCE
           (client_others ops) (ClientPlatform.async_setup_platform config),
         [])
      \/ ClientPlatform.async_volume_down answer
           (ClientPlatform.run CMD_POWER CMD_VOLUME CMD_MUTE CMD_SOURCE
              (client_others ops)
              (ClientPlatform.async_setup_platform config))
         = (Raise TypeError,
            ClientPlatform.run CMD_POWER CMD_VOLUME CMD_MUTE CMD_SOURCE
              (client_others ops)
              (ClientPlatform.async_setup_platform config), [])).
Proof.
  pose proof (ClientHistory.client_run_without_update
                CMD_POWER CMD_VOLUME CMD_MUTE CMD_SOURCE ops
                (ClientPlatform.async_setup_platform config)) as H.
  fold (client_others ops) in H.
  remember (ClientPlatform.run CMD_POWER CMD_VOLUME CMD_MUTE CMD_SOURCE
              (client_others ops)
              (ClientPlatform.async_setup_platform config)) as self eqn:Es.
  clear Es.
  assert (ClientPlatform._volume self = PyNone) as Hv.
  { apply ClientMore.view_fields in H as (_ & Hvol & _). exact Hvol. }
  unfold ClientPlatform.async_volume_up, ClientPlatform.async_volume_down,
    ClientPlatform.client_method, ClientPlatform.await,
    ClientPlatform.internal_vol_to_nad_vol, ClientPlatform.volume_level.
  run_handler.
  destruct (ClientPlatform._client self); cbn; [rewrite Hv; cbn|]; auto.
Qed.

(** X7: with a client, every service call of the client platform makes
    at most one call on it: exactly one, whose answer (a return or an
    exception of the client) is the outcome of the service call, unless
    the conversion of the volume raises [TypeError] first, in which case
    none is made; the handler stays as it was in both cases. *)
Theorem service_with_client_one_call
    (self : ClientPlatform.NADDevice) (cl : ClientPlatform.Client)
    (c : ClientPlatform.command) (answer : result unit) :
  ClientPlatform._client self = Some cl ->
  (exists k : ClientPlatform.client_call,
      ClientPlatform.serve c answer self
      = (answer, self, [ClientPlatform.Await k]))
  \/ (ClientPlatform.serve c answer self = (Raise TypeError, self, [])
      /\ (c = ClientPlatform.VolumeUp \/ c = ClientPlatform.VolumeDown
          \/ exists v, c = ClientPlatform.SetVolumeLevel v)).
Proof. apply ClientMore.serve_with_client. Qed.

Lemma service_with_client_one_call_witness :
  (exists cl, ClientPlatform._client Sample.client_handler = Some cl)
  /\ exists k : ClientPlatform.client_call,
       ClientPlatform.serve (ClientPlatform.MuteVolume (PyBool true))
         (Raise OSError) Sample.client_handler
       = (Raise OSError, Sample.client_handler, [ClientPlatform.Await k]).
Proof.
  assert (ClientPlatform._client Sample.client_handler
          = Some {| ClientPlatform.client_host := "192.168.1.20";
                    ClientPlatform.client_reconnect_interval := 10 |}) as Hc
    by reflexivity.
  split; [eexists; exact Hc|].
  destruct (service_with_client_one_call
              Sample.client_handler _
              (ClientPlatform.MuteVolume (PyBool true)) (Raise OSError) Hc)
    as [[k Hk]|[Hk _]]; [|discriminate Hk].
  exists k. exact Hk.
Defined.

(** X8: after an update that carries any number as volume (in or out of
    the range, integer or not), with [min_vol < max_vol] and a client,
    a volume step overshoots the range by at most half a step:
    [async_volume_up] issues one absolute set between
    [min_vol + volume_step / 2] and [max_vol + volume_step / 2],
    [async_volume_down] one between [min_vol - volume_step / 2] and
    [max_vol - volume_step / 2]. *)
Theorem volume_step_overshoot_bounded
    (CMD_POWER CMD_VOLUME CMD_MUTE CMD_SOURCE : string)
    (st : gmap string pyval) (v : pyval) (n : Q)
    (self : ClientPlatform.NADDevice) (cl : ClientPlatform.Client)
    (answer : result unit) :
  ClientPlatform._min_vol self < ClientPlatform._max_vol self ->
  ClientPlatform._client self = Some cl ->
  st !! CMD_VOLUME = Some v ->
  as_number v = Ok n ->
  let self' :=
    final (ClientPlatform.handle_state_changed
             CMD_POWER CMD_VOLUME CMD_MUTE CMD_SOURCE st self) in
  let half_step := (inject_Z (ClientPlatform._volume_step self) * (1 # 2))%Q in
  (exists x : Q,
      ClientPlatform.async_volume_up answer self'
      = (answer, self', [ClientPlatform.Await (ClientPlatform.set_volume x)])
      /\ (inject_Z (ClientPlatform._min_vol self) + half_step <= x)%Q
      /\ (x <= inject_Z (ClientPlatform._max_vol self) + half_step)%Q)
  /\ (exists x : Q,
         ClientPlatform.async_volume_down answer self'
         = (answer, self',
            [ClientPlatform.Await (ClientPlatform.set_volume x)])
         /\ (inject_Z (ClientPlatform._min_vol self) - half_step <= x)%Q
         /\ (x <= inject_Z (ClientPlatform._max_vol self) - half_step)%Q).
Proof.
  intros range Hc Hv Hn self' half_step.
  destruct (ClientMore.base_after_number
              CMD_POWER CMD_VOLUME CMD_MUTE CMD_SOURCE st self v n
              range Hv Hn) as (b & Hb & Lb & Ub).
  destruct (ClientFacts.handle_state_changed_frame
              CMD_POWER CMD_VOLUME CMD_MUTE CMD_SOURCE st self)
    as (Ec & _ & _ & Es).
  fold self' in Hb, Ec, Es. rewrite Hc in Ec.
  apply inject_Z_le in Lb, Ub.
  split.
  - eexists. split.
    + apply (ClientFacts.client_volume_up_call self' cl _ answer Ec Hb).
    + rewrite Es. subst half_step. split; lra.
  - eexists. split.
    + apply (ClientFacts.client_volume_down_call self' cl _ answer Ec Hb).
    + rewrite Es. subst half_step. split; lra.
Qed.

Lemma volume_step_overshoot_bounded_witness :
  ClientPlatform._min_vol Sample.client_handler
  < ClientPlatform._max_vol Sample.client_handler
  /\ (exists cl, ClientPlatform._client Sample.client_handler = Some cl)
  /\ ({[ Sample.CMD_VOLUME := PyInt (-200) ]} : gmap string pyval)
       !! Sample.CMD_VOLUME = Some (PyInt (-200))
  /\ as_number (PyInt (-200)) = Ok (inject_Z (-200))
  /\ exists x : Q,
       ClientPlatform.async_volume_down (Ok tt)
         (Sample.client_handler_at (-200))
       = (Ok tt, Sample.client_handler_at (-200),
          [ClientPlatform.Await (ClientPlatform.set_volume x)])
       /\ (inject_Z (-80) - inject_Z 4 * (1 # 2) <= x)%Q.
Proof.
  assert (ClientPlatform._min_vol Sample.client_handler
          < ClientPlatform._max_vol Sample.client_handler) as range
    by (vm_compute; reflexivity).
  assert (ClientPlatform._client Sample.client_handler
          = Some {| ClientPlatform.client_host := "192.168.1.20";
                    ClientPlatform.client_reconnect_interval := 10 |}) as Hc
    by reflexivity.
  assert (({[ Sample.CMD_VOLUME := PyInt (-200) ]} : gmap string pyval)
            !! Sample.CMD_VOLUME = Some (PyInt (-200))) as Hv
    by (vm_compute; reflexivity).
  assert (as_number (PyInt (-200)) = Ok (inject_Z (-200))) as Hn
    by reflexivity.
  split; [exact range|]. split; [eexists; exact Hc|].
  split; [exact Hv|]. split; [exact Hn|].
  destruct (volume_step_overshoot_bounded
              Sample.CMD_POWER Sample.CMD_VOLUME Sample.CMD_MUTE
              Sample.CMD_SOURCE _ _ _ Sample.client_handler _ (Ok tt)
              range Hc Hv Hn)
    as (_ & x & Hdown & Hlo & _).
  exists x. split; [exact Hdown|exact Hlo].
Defined.

(** X9: after an update that carries a number as volume, with
    [min_vol < max_vol] and a client, the volume that [async_volume_up]
    sets is an integer exactly when the configured step is even: an odd
    step sends the device a half-integer volume. *)
Theorem volume_step_integral_iff_even
    (CMD_POWER CMD_VOLUME CMD_MUTE CMD_SOURCE : string)
    (st : gmap string pyval) (v : pyval) (n : Q)
    (self : ClientPlatform.NADDevice) (cl : ClientPlatform.Client)
    (answer : result unit) :
  ClientPlatform._min_vol self < ClientPlatform._max_vol self ->
  ClientPlatform._client self = Some cl ->
  st !! CMD_VOLUME = Some v ->
  as_number v = Ok n ->
  exists x : Q,
    volumes_set
      (effects
         (ClientPlatform.async_volume_up answer
            (final (ClientPlatform.handle_state_changed
                      CMD_POWER CMD_VOLUME CMD_MUTE CMD_SOURCE st self))))
    = [x]
    /\ (is_integer x <-> Z.even (ClientPlatform._volume_step self) = true).
Proof.
  intros range Hc Hv Hn.
  destruct (ClientMore.base_after_number
              CMD_POWER CMD_VOLUME CMD_MUTE CMD_SOURCE st self v n
              range Hv Hn) as (b & Hb & _).
  destruct (ClientFacts.handle_state_changed_frame
              CMD_POWER CMD_VOLUME CMD_MUTE CMD_SOURCE st self)
    as (Ec & _ & _ & Es).
  rewrite Hc in Ec.
  rewrite (ClientFacts.client_volume_up_call _ cl _ answer Ec Hb).
  eexists. split; [reflexivity|]. rewrite Es.
  set (step := ClientPlatform._volume_step self).
  split.
  - intros [z Hz]. apply Z.even_spec. exists (z - b).
    apply inject_Z_eq.
    rewrite inject_Z_mult. unfold Zminus.
    rewrite inject_Z_plus, inject_Z_opp.
    change (inject_Z 2) with 2%Q. lra.
  - intros He. apply Z.even_spec in He as [k Hk].
    exists (b + k). rewrite inject_Z_plus, Hk, inject_Z_mult.
    change (inject_Z 2) with 2%Q. lra.
Qed.

Lemma volume_step_integral_iff_even_witness :
  ClientPlatform._min_vol Sample.client_handler
  < ClientPlatform._max_vol Sample.client_handler
  /\ (exists cl, ClientPlatform._client Sample.client_handler = Some cl)
  /\ ({[ Sample.CMD_VOLUME := PyInt (-40) ]} : gmap string pyval)
       !! Sample.CMD_VOLUME = Some (PyInt (-40))
  /\ as_number (PyInt (-40)) = Ok (inject_Z (-40))
  /\ exists x : Q,
       volumes_set
         (effects (ClientPlatform.async_volume_up (Ok tt)
                     (Sample.client_handler_at (-40)))) = [x]
       /\ is_integer x.
Proof.
  assert (ClientPlatform._min_vol Sample.client_handler
          < ClientPlatform._max_vol Sample.client_handler) as range
    by (vm_compute; reflexivity).
  assert (ClientPlatform._client Sample.client_handler
          = Some {| ClientPlatform.client_host := "192.168.1.20";
                    ClientPlatform.client_reconnect_interval := 10 |}) as Hc
    by reflexivity.
  assert (({[ Sample.CMD_VOLUME := PyInt (-40) ]} : gmap string pyval)
            !! Sample.CMD_VOLUME = Some (PyInt (-40))) as Hv
    by (vm_compute; reflexivity).
  assert (as_number (PyInt (-40)) = Ok (inject_Z (-40))) as Hn
    by reflexivity.
  split; [exact range|]. split; [eexists; exact Hc|].
  split; [exact Hv|]. split; [exact Hn|].
  destruct (volume_step_integral_iff_even
              Sample.CMD_POWER Sample.CMD_VOLUME Sample.CMD_MUTE
              Sample.CMD_SOURCE _ _ _ Sample.client_handler _ (Ok tt)
              range Hc Hv Hn)
    as (x & Hx & Hint).
  exists x. split; [exact Hx|]. apply Hint. reflexivity.
Defined.

(** X10: service calls do not accumulate on the client platform: a
    history that consists of service calls leaves the handler exactly as
    it was, so stepping the volume again, without an update in between,
    asks for the same absolute volume again. *)
Theorem service_calls_do_not_accumulate
    (CMD_POWER CMD_VOLUME CMD_MUTE CMD_SOURCE : string)
    (calls : list (ClientPlatform.command * result unit))
    (self : ClientPlatform.NADDevice) (answer : result unit) :
  ClientPlatform.run CMD_POWER CMD_VOLUME CMD_MUTE CMD_SOURCE
    (client_services calls) self = self
  /\ ClientPlatform.async_volume_up answer
       (ClientPlatform.run CMD_POWER CMD_VOLUME CMD_MUTE CMD_SOURCE
          (client_services calls) self)
     = ClientPlatform.async_volume_up answer self
  /\ ClientPlatform.async_volume_down answer
       (ClientPlatform.run CMD_POWER CMD_VOLUME CMD_MUTE CMD_SOURCE
          (client_services calls) self)
     = ClientPlatform.async_volume_down answer self.
Proof.
  assert (ClientPlatform.run CMD_POWER CMD_VOLUME CMD_MUTE CMD_SOURCE
            (client_services calls) self = self) as H.
  { induction calls as [|[c a] calls IH]; [reflexivity|].
    cbn [client_services map fst snd ClientPlatform.run
         ClientPlatform.perform].
    rewrite ClientHistory.client_serve_frame. exact IH. }
  rewrite H. auto.
Qed.

(** X11: applying an update is idempotent on the client platform: the
    same dictionary applied a second time gives the same outcome, the
    same notification and the same handler as the first time. *)
Theorem handle_state_changed_idempotent
    (CMD_POWER CMD_VOLUME CMD_MUTE CMD_SOURCE : string)
    (st : gmap string pyval) (self : ClientPlatform.NADDevice) :
  ClientPlatform.handle_state_changed
    CMD_POWER CMD_VOLUME CMD_MUTE CMD_SOURCE st
    (final (ClientPlatform.handle_state_changed
              CMD_POWER CMD_VOLUME CMD_MUTE CMD_SOURCE st self))
  = (outcome (ClientPlatform.handle_state_changed
                CMD_POWER CMD_VOLUME CMD_MUTE CMD_SOURCE st self),
     final (ClientPlatform.handle_state_changed
              CMD_POWER CMD_VOLUME CMD_MUTE CMD_SOURCE st self),
     effects (ClientPlatform.handle_state_changed
                CMD_POWER CMD_VOLUME CMD_MUTE CMD_SOURCE st self)).
Proof.
  destruct self as [cl nm hs ri mn mx stp sta mu vo so].
  unfold ClientPlatform.handle_state_changed,
    ClientPlatform.nad_vol_to_internal_vol.
  run_handler.
  destruct (st !! CMD_POWER), (st !! CMD_VOLUME) as [v|]; cbn;
    try (destruct (Volume.nad_vol_to_internal_vol mn mx v) eqn:E; cbn;
         rewrite ?E; cbn);
    destruct (st !! CMD_MUTE), (st !! CMD_SOURCE); cbn; rewrite ?E;
    reflexivity.
Qed.

(** X12: on the client platform the power field reflects the last
    update alone: after every history, [_state] is [STATE_ON] or
    [STATE_OFF] by the truth of the power value of the last update, and
    [STATE_UNKNOWN] when that update carried no power key, whatever was
    known before. *)
Theorem state_reflects_last_update
    (CMD_POWER CMD_VOLUME CMD_MUTE CMD_SOURCE : string)
    (before : list ClientPlatform.op) (st : gmap string pyval)
    (after : list ClientPlatform.op) (self : ClientPlatform.NADDevice) :
  ClientPlatform._state
    (ClientPlatform.run CMD_POWER CMD_VOLUME CMD_MUTE CMD_SOURCE
       (before ++ ClientPlatform.StateReceived st :: client_others after)
       self)
  = match st !! CMD_POWER with
    | Some v => if truthy v then STATE_ON else STATE_OFF
    | None => STATE_UNKNOWN
    end.
Proof.
  rewrite ClientMore.run_app. cbn [ClientPlatform.run ClientPlatform.perform].
  pose proof (ClientHistory.client_run_without_update
                CMD_POWER CMD_VOLUME CMD_MUTE CMD_SOURCE after
                (final (ClientPlatform.handle_state_changed
                          CMD_POWER CMD_VOLUME CMD_MUTE CMD_SOURCE st
                          (ClientPlatform.run
                             CMD_POWER CMD_VOLUME CMD_MUTE CMD_SOURCE
                             before self)))) as H.
  fold (client_others after) in H.
  apply ClientMore.view_fields in H as (Hs & _). rewrite Hs.
  apply ClientMore.handle_state_changed_state.
Qed.

(** X13: an update whose volume cannot be converted is applied in
    part on the client platform: [handle_state_changed] raises the
    exception of the conversion after it has written the power field; the
    volume, mute and source fields keep their values even when the
    dictionary carries a mute or a source, and no notification is
    scheduled. *)
Theorem failed_conversion_aborts_update
    (CMD_POWER CMD_VOLUME CMD_MUTE CMD_SOURCE : string)
    (st : gmap string pyval) (v : pyval) (e : exn)
    (self : ClientPlatform.NADDevice) :
  st !! CMD_VOLUME = Some v ->
  ClientPlatform.nad_vol_to_internal_vol self v = Raise e ->
  ClientPlatform.handle_state_changed
    CMD_POWER CMD_VOLUME CMD_MUTE CMD_SOURCE st self
  = (Raise e,
     ClientPlatform.set_state
       match st !! CMD_POWER with
       | Some p => if truthy p then STATE_ON else STATE_OFF
       | None => STATE_UNKNOWN
       end self,
     []).
Proof.
  intros Hv He.
  unfold ClientPlatform.handle_state_changed,
    ClientPlatform.nad_vol_to_internal_vol in *.
  run_handler. rewrite Hv.
  destruct (st !! CMD_POWER); cbn in *; rewrite He; reflexivity.
Qed.

Lemma failed_conversion_aborts_update_witness :
  Sample.bad_update !! Sample.CMD_VOLUME = Some (PyStr "loud")
  /\ ClientPlatform.nad_vol_to_internal_vol
       (Sample.client_handler_at (-40)) (PyStr "loud") = Raise TypeError
  /\ ClientPlatform.handle_state_changed
       Sample.CMD_POWER Sample.CMD_VOLUME Sample.CMD_MUTE Sample.CMD_SOURCE
       Sample.bad_update (Sample.client_handler_at (-40))
     = (Raise TypeError,
        ClientPlatform.set_state STATE_UNKNOWN
          (Sample.client_handler_at (-40)), [])
  /\ ClientPlatform._muted
       (ClientPlatform.set_state STATE_UNKNOWN
          (Sample.client_handler_at (-40))) = PyNone.
Proof.
  assert (Sample.bad_update !! Sample.CMD_VOLUME = Some (PyStr "loud"))
    as Hv by (vm_compute; reflexivity).
  assert (ClientPlatform.nad_vol_to_internal_vol
            (Sample.client_handler_at (-40)) (PyStr "loud")
          = Raise TypeError) as He by reflexivity.
  split; [exact Hv|]. split; [exact He|]. split; [|reflexivity].
  rewrite (failed_conversion_aborts_update
             Sample.CMD_POWER Sample.CMD_VOLUME Sample.CMD_MUTE
             Sample.CMD_SOURCE _ _ _ _ Hv He).
  f_equal.
Defined.

(** X14: with [min_vol < max_vol], in every state that a handler of the
    client platform reaches the stored volume level is unknown or a
    number between 0 and 1, whatever values the updates carried. *)
Theorem stored_level_within_unit
    (CMD_POWER CMD_VOLUME CMD_MUTE CMD_SOURCE : string) (config : Config)
    (ops : list ClientPlatform.op) :
  conf_min_volume config < conf_max_volume config ->
  unit_level
    (ClientPlatform.volume_level
       (ClientPlatform.run CMD_POWER CMD_VOLUME CMD_MUTE CMD_SOURCE ops
          (ClientPlatform.async_setup_platform config))).
Proof.
  intros range.
  assert (forall self,
             ClientPlatform._min_vol self < ClientPlatform._max_vol self ->
             unit_level (ClientPlatform._volume self) ->
             unit_level
               (ClientPlatform._volume
                  (ClientPlatform.run CMD_POWER CMD_VOLUME CMD_MUTE
                     CMD_SOURCE ops self))) as H.
  { induction ops as [|o ops IH]; intros self Hr Hu; [exact Hu|].
    cbn [ClientPlatform.run].
    pose proof (ClientMore.other_ops_keep_settings
                  CMD_POWER CMD_VOLUME CMD_MUTE CMD_SOURCE o self) as Hs.
    apply ClientMore.settings_fields in Hs as (Emin & Emax & _).
    apply IH; [rewrite Emin, Emax; exact Hr|].
    destruct (ClientPlatform.is_update o) eqn:U.
    - destruct o; try discriminate U. cbn [ClientPlatform.perform].
      destruct (ClientMore.handle_state_changed_level
                  CMD_POWER CMD_VOLUME CMD_MUTE CMD_SOURCE st self)
        as [-> |(v & q & Hq & ->)]; [exact Hu|].
      right. exists q. split; [reflexivity|].
      pose proof (nad_vol_to_internal_vol_level_bounds
                    (ClientPlatform._min_vol self)
                    (ClientPlatform._max_vol self) v) as B.
      unfold ClientPlatform.nad_vol_to_internal_vol in Hq.
      rewrite Hq in B. exact B.
    - pose proof (ClientHistory.other_ops_keep_view
                    CMD_POWER CMD_VOLUME CMD_MUTE CMD_SOURCE o self U) as Hv.
      apply ClientMore.view_fields in Hv as (_ & -> & _). exact Hu. }
  apply H; [exact range|]. left. reflexivity.
Qed.

Lemma stored_level_within_unit_witness :
  conf_min_volume Sample.config < conf_max_volume Sample.config
  /\ unit_level
       (ClientPlatform.volume_level (Sample.client_handler_at (-200))).
Proof.
  assert (conf_min_volume Sample.config < conf_max_volume Sample.config)
    as range by (vm_compute; reflexivity).
  split; [exact range|].
  exact (stored_level_within_unit
           Sample.CMD_POWER Sample.CMD_VOLUME Sample.CMD_MUTE
           Sample.CMD_SOURCE Sample.config
           [ClientPlatform.AddedToHass true (Ok tt);
            ClientPlatform.StateReceived
              {[ Sample.CMD_VOLUME := PyInt (-200) ]}]
           range).
Defined.

(** X15: on the client platform the reported level round-trips through
    the handler: after an update that carries the integer volume [v],
    with [min_vol < max_vol] and a client, setting the volume level to
    the level the handler reports issues exactly one absolute set, with
    [v] brought into [min_vol, max_vol]. *)
Theorem set_reported_level_round_trip
    (CMD_POWER CMD_VOLUME CMD_MUTE CMD_SOURCE : string)
    (st : gmap string pyval) (v : Z)
    (self : ClientPlatform.NADDevice) (cl : ClientPlatform.Client)
    (answer : result unit) :
  ClientPlatform._min_vol self < ClientPlatform._max_vol self ->
  ClientPlatform._client self = Some cl ->
  st !! CMD_VOLUME = Some (PyInt v) ->
  let self' :=
    final (ClientPlatform.handle_state_changed
             CMD_POWER CMD_VOLUME CMD_MUTE CMD_SOURCE st self) in
  ClientPlatform.async_set_volume_level
    (ClientPlatform.volume_level self') answer self'
  = (answer, self',
     [ClientPlatform.Await
        (ClientPlatform.set_volume
           (inject_Z (clamp (ClientPlatform._min_vol self)
                            (ClientPlatform._max_vol self) v)))]).
Proof.
  intros range Hc Hv self'.
  pose proof (ClientFacts.base_after_update
                CMD_POWER CMD_VOLUME CMD_MUTE CMD_SOURCE st self v range Hv)
    as Hbase.
  destruct (ClientFacts.handle_state_changed_frame
              CMD_POWER CMD_VOLUME CMD_MUTE CMD_SOURCE st self)
    as (Ec & _).
  fold self' in Hbase, Ec. rewrite Hc in Ec.
  unfold ClientPlatform.async_set_volume_level, ClientPlatform.client_method,
    ClientPlatform.await.
  run_handler. rewrite Ec. cbn. rewrite Hbase. reflexivity.
Qed.

Lemma set_reported_level_round_trip_witness :
  ClientPlatform._min_vol Sample.client_handler
  < ClientPlatform._max_vol Sample.client_handler
  /\ (exists cl, ClientPlatform._client Sample.client_handler = Some cl)
  /\ ({[ Sample.CMD_VOLUME := PyInt (-40) ]} : gmap string pyval)
       !! Sample.CMD_VOLUME = Some (PyInt (-40))
  /\ ClientPlatform.async_set_volume_level
       (ClientPlatform.volume_level (Sample.client_handler_at (-40)))
       (Ok tt) (Sample.client_handler_at (-40))
     = (Ok tt, Sample.client_handler_at (-40),
        [ClientPlatform.Await
           (ClientPlatform.set_volume (inject_Z (clamp (-80) (-10) (-40))))]).
Proof.
  assert (ClientPlatform._min_vol Sample.client_handler
          < ClientPlatform._max_vol Sample.client_handler) as range
    by (vm_compute; reflexivity).
  assert (ClientPlatform._client Sample.client_handler
          = Some {| ClientPlatform.client_host := "192.168.1.20";
                    ClientPlatform.client_reconnect_interval := 10 |}) as Hc
    by reflexivity.
  assert (({[ Sample.CMD_VOLUME := PyInt (-40) ]} : gmap string pyval)
            !! Sample.CMD_VOLUME = Some (PyInt (-40))) as Hv
    by (vm_compute; reflexivity).
  split; [exact range|]. split; [eexists; exact Hc|]. split; [exact Hv|].
  exact (set_reported_level_round_trip
           Sample.CMD_POWER Sample.CMD_VOLUME Sample.CMD_MUTE
           Sample.CMD_SOURCE _ (-40) Sample.client_handler _ (Ok tt)
           range Hc Hv).
Defined.

(** ** The protocol platform: service calls and messages *)

Module ProtocolMore.
Import ProtocolPlatform.

Lemma serve_disconnected (c : command) (answer : result unit)
    (self : NADDevice) :
  is_connected self = false -> serve c answer self = (Ok tt, self, []).
Proof.
  unfold is_connected.
  destruct self as [pc [p|] ? ? ? ? ? ? ? ? ? ?]; cbn; intros H;
    [discriminate H|].
  destruct c; reflexivity.
Qed.

Lemma serve_connected (c : command) (answer : result unit)
    (self : NADDevice) (p : Protocol) :
  _protocol self = Some p ->
  (exists k, serve c answer self = (answer, self, [Call k]))
  \/ (serve c answer self = (Raise TypeError, self, [])
      /\ exists v, c = SetVolumeLevel v /\ as_number v = Raise TypeError).
Proof.
  destruct self as [pc pr ? ? ? ? ? ? ? ? ? ?]. cbn. intros ->.
  destruct c; cbn [serve]; try (left; eexists; reflexivity).
  - unfold async_set_volume_level, Volume.internal_vol_to_nad_vol.
    run_handler.
    destruct (as_number volume) as [n|e] eqn:E; cbn.
    + left. eexists. reflexivity.
    + right. assert (e = TypeError) as ->
        by (destruct volume; cbn in E; congruence).
      split; [reflexivity|]. exists volume. auto.
  - unfold async_mute_volume. run_handler.
    destruct (truthy mute_arg); left; eexists; reflexivity.
Qed.

(** The key of a message, told apart as [message_received] does it. *)
Lemma key_cases (key : string) :
  key = "Main.Volume" \/ key = "Main.Power" \/ key = "Main.Mute"
  \/ key = "Main.Source"
  \/ (String.eqb key "Main.Volume" = false
      /\ String.eqb key "Main.Power" = false
      /\ String.eqb key "Main.Mute" = false
      /\ String.eqb key "Main.Source" = false).
Proof.
  destruct (String.eqb_spec key "Main.Volume"); [auto|].
  destruct (String.eqb_spec key "Main.Power"); [auto|].
  destruct (String.eqb_spec key "Main.Mute"); [auto|].
  destruct (String.eqb_spec key "Main.Source"); [auto|].
  do 4 right. auto.
Qed.

Lemma message_received_unknown (key : string) (value : pyval)
    (self : NADDevice) :
  String.eqb key "Main.Volume" = false ->
  String.eqb key "Main.Power" = false ->
  String.eqb key "Main.Mute" = false ->
  String.eqb key "Main.Source" = false ->
  message_received key value self = (Ok tt, self, [AsyncRunJobUpdateHaState]).
Proof.
  intros Hv Hp Hm Hs. unfold message_received. run_handler.
  rewrite Hv, Hp, Hm, Hs. reflexivity.
Qed.

Lemma message_keeps_protocol (key : string) (value : pyval)
    (self : NADDevice) :
  _protocol (final (message_received_callback key value self))
  = _protocol self
  /\ protocol_settings (final (message_received_callback key value self))
     = protocol_settings self.
Proof.
  unfold message_received_callback, message_received. run_handler.
  destruct (String.eqb key "Main.Volume"); [auto|].
  destruct (String.eqb key "Main.Power"); [auto|].
  destruct (String.eqb key "Main.Mute"); [auto|].
  destruct (String.eqb key "Main.Source"); auto.
Qed.

Lemma perform_keeps_settings (o : op) (self : NADDevice) :
  protocol_settings (final (perform o self)) = protocol_settings self.
Proof.
  destruct o as [c a|a| |net|s exc|key value]; cbn [perform].
  - rewrite ProtocolHistory.protocol_serve_frame. reflexivity.
  - destruct self as [pc [p|] ? ? ? ? ? ? ? ? ? ?]; reflexivity.
  - reflexivity.
  - unfold connect. run_handler.
    destruct net as [t p|exc]; [reflexivity|].
    destruct (caught exc); reflexivity.
  - unfold reconnect. run_handler.
    destruct (CoreState_eqb s stopping); reflexivity.
  - apply message_keeps_protocol.
Qed.
End ProtocolMore.

(** X16: a disconnected handler of the protocol platform is inert:
    every service call and [async_update] returns without an exception,
    makes no call and leaves the handler as it was, and the entity reads
    off, not muted and without sources, whatever the stored fields. *)
Theorem disconnected_handler_is_inert
    (self : ProtocolPlatform.NADDevice) (c : ProtocolPlatform.command)
    (answer : result unit) :
  ProtocolPlatform.is_connected self = false ->
  ProtocolPlatform.serve c answer self = (Ok tt, self, [])
  /\ ProtocolPlatform.async_update answer self = (Ok tt, self, [])
  /\ ProtocolPlatform.state self = Ok STATE_OFF
  /\ ProtocolPlatform.is_volume_muted self = Ok false
  /\ ProtocolPlatform.source_list self = Ok [].
Proof.
  intros Hd. split; [apply ProtocolMore.serve_disconnected; exact Hd|].
  unfold ProtocolPlatform.async_update, ProtocolPlatform.state,
    ProtocolPlatform.is_volume_muted, ProtocolPlatform.source_list.
  run_handler. rewrite Hd. auto.
Qed.

Lemma disconnected_handler_is_inert_witness :
  ProtocolPlatform.is_connected Sample.protocol_handler = false
  /\ ProtocolPlatform.serve
       (ProtocolPlatform.SetVolumeLevel (PyStr "loud")) (Raise OSError)
       Sample.protocol_handler
     = (Ok tt, Sample.protocol_handler, []).
Proof.
  assert (ProtocolPlatform.is_connected Sample.protocol_handler = false)
    as Hd by reflexivity.
  split; [exact Hd|].
  exact (proj1 (disconnected_handler_is_inert
                  Sample.protocol_handler
                  (ProtocolPlatform.SetVolumeLevel (PyStr "loud"))
                  (Raise OSError) Hd)).
Defined.

(** X17: a connected handler of the protocol platform makes exactly
    one call on the protocol for every service call, and the answer of
    the protocol (a return or an exception) is the outcome of the
    service call; the one exception is a volume level that is no number,
    which raises [TypeError] before any call.  The handler stays as it
    was in both cases. *)
Theorem connected_service_one_call
    (self : ProtocolPlatform.NADDevice) (p : ProtocolPlatform.Protocol)
    (c : ProtocolPlatform.command) (answer : result unit) :
  ProtocolPlatform._protocol self = Some p ->
  (exists k : ProtocolPlatform.protocol_call,
      ProtocolPlatform.serve c answer self
      = (answer, self, [ProtocolPlatform.Call k]))
  \/ (ProtocolPlatform.serve c answer self = (Raise TypeError, self, [])
      /\ exists v, c = ProtocolPlatform.SetVolumeLevel v
                   /\ as_number v = Raise TypeError).
Proof. apply ProtocolMore.serve_connected. Qed.

Lemma connected_service_one_call_witness :
  ProtocolPlatform._protocol Sample.connected_handler = Some Sample.protocol
  /\ exists k : ProtocolPlatform.protocol_call,
       ProtocolPlatform.serve ProtocolPlatform.TurnOn (Raise OSError)
         Sample.connected_handler
       = (Raise OSError, Sample.connected_handler,
          [ProtocolPlatform.Call k]).
Proof.
  assert (ProtocolPlatform._protocol Sample.connected_handler
          = Some Sample.protocol) as Hp by reflexivity.
  split; [exact Hp|].
  destruct (connected_service_one_call
              Sample.connected_handler _ ProtocolPlatform.TurnOn
              (Raise OSError) Hp)
    as [[k Hk]|[Hk _]]; [|discriminate Hk].
  exists k. exact Hk.
Defined.

(** X18: a message whose key is none of [Main.Volume], [Main.Power],
    [Main.Mute] and [Main.Source] writes no field on the protocol
    platform, and still fires one state-changed notification. *)
Theorem unknown_key_only_notifies
    (key : string) (value : pyval) (self : ProtocolPlatform.NADDevice) :
  key <> "Main.Volume" -> key <> "Main.Power" ->
  key <> "Main.Mute" -> key <> "Main.Source" ->
  ProtocolPlatform.message_received key value self
  = (Ok tt, self, [ProtocolPlatform.AsyncRunJobUpdateHaState]).
Proof.
  intros Hv Hp Hm Hs.
  apply ProtocolMore.message_received_unknown; apply String.eqb_neq;
    assumption.
Qed.

Lemma unknown_key_only_notifies_witness :
  ("main.power" <> "Main.Volume" /\ "main.power" <> "Main.Power"
   /\ "main.power" <> "Main.Mute" /\ "main.power" <> "Main.Source")%string
  /\ ProtocolPlatform.message_received "main.power" (PyInt 1)
       Sample.connected_handler
     = (Ok tt, Sample.connected_handler,
        [ProtocolPlatform.AsyncRunJobUpdateHaState]).
Proof.
  assert ("main.power" <> "Main.Volume")%string as Hv by discriminate.
  assert ("main.power" <> "Main.Power")%string as Hp by discriminate.
  assert ("main.power" <> "Main.Mute")%string as Hm by discriminate.
  assert ("main.power" <> "Main.Source")%string as Hs by discriminate.
  split; [auto|].
  exact (unknown_key_only_notifies
           "main.power" (PyInt 1) Sample.connected_handler Hv Hp Hm Hs).
Defined.

(** X19: on the protocol platform messages with different keys commute
    (the handler after both does not depend on their order), and of two
    messages with the same key the last one wins. *)
Theorem messages_commute_last_wins
    (key1 key2 : string) (value1 value2 : pyval)
    (self : ProtocolPlatform.NADDevice) :
  key1 <> key2 ->
  final (ProtocolPlatform.message_received key2 value2
           (final (ProtocolPlatform.message_received key1 value1 self)))
  = final (ProtocolPlatform.message_received key1 value1
             (final (ProtocolPlatform.message_received key2 value2 self)))
  /\ final (ProtocolPlatform.message_received key1 value2
              (final (ProtocolPlatform.message_received key1 value1 self)))
     = final (ProtocolPlatform.message_received key1 value2 self).
Proof.
  intros Hne. split.
  - destruct (ProtocolMore.key_cases key1)
      as [-> |[-> |[-> |[-> |(V1 & P1 & M1 & S1)]]]];
      destruct (ProtocolMore.key_cases key2)
        as [-> |[-> |[-> |[-> |(V2 & P2 & M2 & S2)]]]];
      try contradiction;
      rewrite ?(ProtocolMore.message_received_unknown key1) by assumption;
      rewrite ?(ProtocolMore.message_received_unknown key2) by assumption;
      try reflexivity.
  - destruct (ProtocolMore.key_cases key1)
      as [-> |[-> |[-> |[-> |(V1 & P1 & M1 & S1)]]]];
      rewrite ?(ProtocolMore.message_received_unknown key1) by assumption;
      reflexivity.
Qed.

Lemma messages_commute_last_wins_witness :
  ("Main.Power" <> "Main.Volume")%string
  /\ final (ProtocolPlatform.message_received "Main.Volume" (PyInt (-30))
              (final (ProtocolPlatform.message_received
                        "Main.Power" (PyStr "On") Sample.connected_handler)))
     = final (ProtocolPlatform.message_received "Main.Power" (PyStr "On")
                (final (ProtocolPlatform.message_received
                          "Main.Volume" (PyInt (-30))
                          Sample.connected_handler))).
Proof.
  assert ("Main.Power" <> "Main.Volume")%string as Hne by discriminate.
  split; [exact Hne|].
  exact (proj1 (messages_commute_last_wins
                  "Main.Power" "Main.Volume" (PyStr "On") (PyInt (-30))
                  Sample.connected_handler Hne)).
Defined.

(** X20: [reconnect] keeps the last known values: in whatever core
    state it runs, the handler is disconnected afterwards and the power,
    volume, mute and source fields are what they were, so the source and
    the volume level read as before while the entity reads off, not
    muted and without sources. *)
Theorem reconnect_keeps_last_known_values
    (s : CoreState) (exc : option exn) (self : ProtocolPlatform.NADDevice) :
  ProtocolPlatform.is_connected
    (final (ProtocolPlatform.reconnect s exc self)) = false
  /\ ProtocolPlatform.device_state
       (final (ProtocolPlatform.reconnect s exc self))
     = ProtocolPlatform.device_state self
  /\ ProtocolPlatform.source (final (ProtocolPlatform.reconnect s exc self))
     = ProtocolPlatform.source self
  /\ ProtocolPlatform.volume_level
       (final (ProtocolPlatform.reconnect s exc self))
     = ProtocolPlatform.volume_level self
  /\ ProtocolPlatform.state (final (ProtocolPlatform.reconnect s exc self))
     = Ok STATE_OFF
  /\ ProtocolPlatform.is_volume_muted
       (final (ProtocolPlatform.reconnect s exc self)) = Ok false
  /\ ProtocolPlatform.source_list
       (final (ProtocolPlatform.reconnect s exc self)) = Ok [].
Proof.
  rewrite LoopFacts.reconnect_runs. unfold final. cbn [fst snd].
  repeat split; reflexivity.
Qed.

(** X21: on the protocol platform the reported level round-trips
    through the handler: with [min_vol < max_vol], after the message
    [Main.Volume] with the integer [v] the level that a connected handler
    reports, given to [async_set_volume_level], makes exactly one
    [set_value] call on the volume key, with [v] brought into
    [min_vol, max_vol]. *)
Theorem protocol_level_round_trip
    (v : Z) (self : ProtocolPlatform.NADDevice)
    (p : ProtocolPlatform.Protocol) (answer : result unit) :
  ProtocolPlatform._min_vol self < ProtocolPlatform._max_vol self ->
  ProtocolPlatform._protocol self = Some p ->
  let self' :=
    final (ProtocolPlatform.message_received "Main.Volume" (PyInt v) self) in
  exists q : Q,
    ProtocolPlatform.volume_level self' = Ok q
    /\ ProtocolPlatform.async_set_volume_level (PyNum q) answer self'
       = (answer, self',
          [ProtocolPlatform.Call
             (ProtocolPlatform.set_value
                (ProtocolPlatform.MSG_VOLUME p)
                (PyInt (clamp (ProtocolPlatform._min_vol self)
                              (ProtocolPlatform._max_vol self) v)))]).
Proof.
  intros range Hp self'.
  destruct (to_internal_number _ _ range (inject_Z v)) as (q & Hq & _).
  pose proof (to_nad_of_level _ _ range v q Hq) as Hback.
  exists q. subst self'.
  destruct self as [pc pr nm hs ri mn mx stp pw mu vo so].
  cbn in *. subst pr. split; [exact Hq|].
  unfold ProtocolPlatform.async_set_volume_level. run_handler.
  unfold Volume.internal_vol_to_nad_vol in *. cbn in *.
  injection Hback as ->. reflexivity.
Qed.

Lemma protocol_level_round_trip_witness :
  ProtocolPlatform._min_vol Sample.connected_handler
  < ProtocolPlatform._max_vol Sample.connected_handler
  /\ ProtocolPlatform._protocol Sample.connected_handler
     = Some Sample.protocol
  /\ exists q : Q,
       ProtocolPlatform.volume_level
         (final (ProtocolPlatform.message_received
                   "Main.Volume" (PyInt (-30)) Sample.connected_handler))
       = Ok q.
Proof.
  assert (ProtocolPlatform._min_vol Sample.connected_handler
          < ProtocolPlatform._max_vol Sample.connected_handler) as range
    by (vm_compute; reflexivity).
  assert (ProtocolPlatform._protocol Sample.connected_handler
          = Some Sample.protocol) as Hp by reflexivity.
  split; [exact range|]. split; [exact Hp|].
  destruct (protocol_level_round_trip
              (-30) Sample.connected_handler _ (Ok tt) range Hp)
    as (q & Hq & _).
  exists q. exact Hq.
Defined.

(** X22: the configuration of a handler never changes: after every
    history, on both platforms, the name, the host, the reconnect
    interval, the volume bounds and the volume step are those of the
    configuration the handler was set up with. *)
Theorem configuration_never_changes
    (CMD_POWER CMD_VOLUME CMD_MUTE CMD_SOURCE : string) (config : Config)
    (ops : list ClientPlatform.op) (history : list ProtocolPlatform.op) :
  client_settings
    (ClientPlatform.run CMD_POWER CMD_VOLUME CMD_MUTE CMD_SOURCE ops
       (ClientPlatform.async_setup_platform config))
  = (conf_name config, conf_host config, conf_reconnect_interval config,
     conf_min_volume config, conf_max_volume config, conf_volume_step config)
  /\ protocol_settings
       (ProtocolPlatform.run history
          (ProtocolPlatform.async_setup_platform config))
     = (conf_name config, conf_host config, conf_reconnect_interval config,
        conf_min_volume config, conf_max_volume config,
        conf_volume_step config).
Proof.
  split.
  - rewrite ClientMore.run_keeps_settings. reflexivity.
  - assert (forall self,
               protocol_settings (ProtocolPlatform.run history self)
               = protocol_settings self) as H.
    { induction history as [|o history IH]; intros self; [reflexivity|].
      cbn [ProtocolPlatform.run]. rewrite IH.
      apply ProtocolMore.perform_keeps_settings. }
    rewrite H. reflexivity.
Qed.

(** ** The protocol platform: the retry chain *)

Module LoopMore.
Import ProtocolPlatform EventLoop LoopFacts LoopInvariants.

Lemma agree_same (w w' : World) :
  _protocol (handler w') = _protocol (handler w) ->
  connection w' = connection w ->
  agree w -> agree w'.
Proof.
  unfold agree, is_connected. intros -> ->. auto.
Qed.

Lemma agree_step (ev : event) (w : World) :
  (pending w <= 1)%nat -> agree w -> agree (step ev w).
Proof.
  intros Hp Ha.
  destruct ev as [net answer|i|exc|key value|c answer|s|dt].
  - destruct (ready w) as [|[|] rest] eqn:Hr.
    + rewrite run_nothing by exact Hr. exact Ha.
    + destruct net as [t p|exc].
      * unfold agree. cbn [step]. rewrite Hr. cbn. split; congruence.
      * pose proof (run_connect_failed exc answer rest w Hr) as H.
        apply schedule_fields in H as (_ & _ & _ & _ & Hc & _).
        apply (agree_same w); [|exact Hc|exact Ha].
        cbn [step]. rewrite Hr, LoopConfig.enact_handler.
        cbn [handler with_ready]. rewrite connect_failed.
        destruct (caught exc); reflexivity.
    + pose proof (run_update net answer rest w Hr) as H.
      apply schedule_fields in H as (_ & _ & _ & _ & Hc & _).
      apply (agree_same w); [|exact Hc|exact Ha].
      cbn [step]. rewrite Hr, LoopConfig.enact_handler.
      cbn [handler with_ready].
      destruct (handler w) as [pc [p|] ? ? ? ? ? ? ? ? ? ?]; reflexivity.
  - destruct (timers w !! i) as [[due [exc]]|] eqn:Hi.
    + pose proof (fire_timer i due exc w Hi) as H.
      apply schedule_fields in H as (_ & _ & _ & _ & Hc & _).
      pose proof (lookup_lt_Some _ _ _ Hi) as Hlt.
      assert (connection w = None) as Hnone.
      { unfold pending in Hp. destruct (connection w); [lia|reflexivity]. }
      unfold agree. rewrite Hc, Hnone.
      cbn [step]. rewrite Hi, LoopConfig.enact_handler, reconnect_runs.
      cbn. split; [discriminate|congruence].
    + rewrite fire_nothing by exact Hi. exact Ha.
  - destruct (connection w) as [t|] eqn:Hcw.
    + pose proof (connection_lost exc t w Hcw) as H.
      apply schedule_fields in H as (_ & _ & _ & _ & Hc & _).
      unfold agree. rewrite Hc.
      cbn [step]. rewrite Hcw, LoopConfig.enact_handler, reconnect_runs.
      cbn. split; [discriminate|congruence].
    + cbn [step]. rewrite Hcw. exact Ha.
  - pose proof (other_events (Receive key value) w I) as H.
    symmetry in H. apply schedule_fields in H as (_ & _ & _ & _ & Hc & _).
    apply (agree_same w); [|symmetry; exact Hc|exact Ha].
    cbn [step]. destruct (connection w); [|reflexivity].
    rewrite LoopConfig.enact_handler.
    apply ProtocolMore.message_keeps_protocol.
  - pose proof (other_events (Serve c answer) w I) as H.
    symmetry in H. apply schedule_fields in H as (_ & _ & _ & _ & Hc & _).
    apply (agree_same w); [|symmetry; exact Hc|exact Ha].
    cbn [step]. rewrite LoopConfig.enact_handler.
    rewrite ProtocolHistory.protocol_serve_frame. reflexivity.
  - exact Ha.
  - exact Ha.
Qed.

Lemma agree_reachable (config : Config) (s : CoreState) (t0 : Z)
    (evs : list event) :
  agree (exec evs (boot config s t0)).
Proof.
  assert (forall w, (pending w <= 1)%nat -> agree w -> agree (exec evs w))
    as H.
  { induction evs as [|ev evs IH]; intros w Hp Ha; [exact Ha|].
    cbn [exec]. apply IH.
    - etransitivity; [apply pending_step|exact Hp].
    - apply agree_step; assumption. }
  apply H.
  - rewrite pending_boot. reflexivity.
  - unfold agree. cbn. split; [discriminate|congruence].
Qed.

(** A callback that fires while Home Assistant is stopping leaves
    nothing pending. *)
Lemma timer_while_stopping (i : nat) (t : Z * callback) (w : World) :
  (pending w <= 1)%nat ->
  timers w !! i = Some t ->
  hass_state w = stopping ->
  pending (step (FireTimer i) w) = 0%nat
  /\ attempts (step (FireTimer i) w) = attempts w.
Proof.
  intros Hp Hi Hst. destruct t as [due [exc]].
  pose proof (fire_timer i due exc w Hi) as H.
  apply schedule_fields in H as (_ & _ & Hr & Ht & Hc & Ha).
  rewrite Hst in Hr. cbn [CoreState_eqb] in Hr.
  assert (length (delete i (timers w)) = (length (timers w) - 1)%nat)
    as Hd by (apply length_delete; eauto).
  pose proof (lookup_lt_Some _ _ _ Hi) as Hlt.
  split; [|exact Ha].
  unfold pending in *. rewrite Hr, Ht, Hc, Hd. lia.
Qed.
End LoopMore.

(** X23: in every world that a handler of the protocol platform reaches
    at most one thing is pending that leads to a connection attempt: a
    waiting [connect] job, or a waiting [reconnect] callback, or an open
    connection.  So there are never two callbacks or two [connect] jobs,
    and none of either while a connection is open. *)
Theorem at_most_one_retry_pending
    (config : Config) (s0 : CoreState) (t0 : Z)
    (history : list EventLoop.event) :
  (EventLoop.pending (EventLoop.exec history (EventLoop.boot config s0 t0))
   <= 1)%nat
  /\ (length (EventLoop.timers
                (EventLoop.exec history (EventLoop.boot config s0 t0)))
      + length (List.filter EventLoop.is_connect
                  (EventLoop.ready
                     (EventLoop.exec history
                        (EventLoop.boot config s0 t0))))
      <= 1)%nat
  /\ (EventLoop.connection
        (EventLoop.exec history (EventLoop.boot config s0 t0)) = None
      \/ (EventLoop.timers
            (EventLoop.exec history (EventLoop.boot config s0 t0)) = []
          /\ List.filter EventLoop.is_connect
               (EventLoop.ready
                  (EventLoop.exec history (EventLoop.boot config s0 t0)))
             = [])).
Proof.
  pose proof (LoopInvariants.pending_reachable config s0 t0 history) as Hp.
  split; [exact Hp|].
  unfold EventLoop.pending in Hp.
  destruct (EventLoop.connection _) as [t|].
  - split; [lia|]. right.
    split; [destruct (EventLoop.timers _)|destruct (List.filter _ _)];
      try reflexivity; cbn in Hp; lia.
  - split; [lia|]. left. reflexivity.
Qed.

(** X24: in every world that a handler of the protocol platform reaches
    the handler holds a protocol exactly when a connection is open:
    [is_connected] never lags behind the connection. *)
Theorem connected_iff_connection_open
    (config : Config) (s0 : CoreState) (t0 : Z)
    (history : list EventLoop.event) :
  ProtocolPlatform.is_connected
    (EventLoop.handler
       (EventLoop.exec history (EventLoop.boot config s0 t0))) = true
  <-> EventLoop.connection
        (EventLoop.exec history (EventLoop.boot config s0 t0)) <> None.
Proof. apply LoopMore.agree_reachable. Qed.

(** X25: an exception that the [except] clause of [connect] does not
    name ends the retry chain: when the attempt of a [connect] job fails
    with one, in any world that the handler reaches, nothing is scheduled
    and nothing is left pending, so no connection is attempted ever
    again. *)
Theorem uncaught_error_ends_retries
    (exc : exn) (config : Config) (s0 : CoreState) (t0 : Z)
    (before : list EventLoop.event) (rest : list ProtocolPlatform.job)
    (answer : result unit) (after : list EventLoop.event) :
  exc = TypeError \/ exc = ZeroDivisionError \/ exc = AttributeError
  \/ exc = ValueError ->
  EventLoop.ready (EventLoop.exec before (EventLoop.boot config s0 t0))
  = ProtocolPlatform.job_connect :: rest ->
  let w := EventLoop.exec before (EventLoop.boot config s0 t0) in
  let w' :=
    EventLoop.step
      (EventLoop.RunJob (ProtocolPlatform.failed exc) answer) w in
  outcome (ProtocolPlatform.connect (ProtocolPlatform.failed exc)
             (EventLoop.handler w)) = Raise exc
  /\ EventLoop.pending w' = 0%nat
  /\ EventLoop.attempts (EventLoop.exec after w')
     = EventLoop.attempts w ++ [EventLoop.now w].
Proof.
  intros Hexc Hr. cbv zeta.
  set (w := EventLoop.exec before (EventLoop.boot config s0 t0)) in *.
  assert (ProtocolPlatform.caught exc = false) as Hcaught
    by (destruct Hexc as [->|[->|[->| ->]]]; reflexivity).
  pose proof (LoopInvariants.pending_reachable config s0 t0 before) as Hp.
  fold w in Hp.
  pose proof (LoopFacts.run_connect_failed exc answer rest w Hr) as H.
  rewrite Hcaught in H.
  apply LoopInvariants.schedule_fields in H
    as (_ & _ & Hr' & Ht' & Hc' & Ha').
  assert (EventLoop.pending
            (EventLoop.step
               (EventLoop.RunJob (ProtocolPlatform.failed exc) answer) w)
          = 0%nat) as Hzero.
  { unfold EventLoop.pending in *. rewrite Hr', Ht', Hc'.
    rewrite Hr in Hp. cbn in Hp. lia. }
  split; [|split].
  - rewrite LoopFacts.connect_failed, Hcaught. reflexivity.
  - exact Hzero.
  - rewrite LoopInvariants.quiescent by exact Hzero. exact Ha'.
Qed.

Lemma uncaught_error_ends_retries_witness :
  (ValueError = TypeError \/ ValueError = ZeroDivisionError
   \/ ValueError = AttributeError \/ ValueError = ValueError)
  /\ EventLoop.ready (EventLoop.exec [] (EventLoop.boot Sample.config running 0))
     = [ProtocolPlatform.job_connect]
  /\ EventLoop.attempts
       (EventLoop.exec Sample.after_stopping
          (EventLoop.step
             (EventLoop.RunJob (ProtocolPlatform.failed ValueError) (Ok tt))
             (EventLoop.exec [] (EventLoop.boot Sample.config running 0))))
     = [0].
Proof.
  assert (ValueError = TypeError \/ ValueError = ZeroDivisionError
          \/ ValueError = AttributeError \/ ValueError = ValueError)
    as Hexc by (do 3 right; reflexivity).
  assert (EventLoop.ready
            (EventLoop.exec [] (EventLoop.boot Sample.config running 0))
          = [ProtocolPlatform.job_connect]) as Hr by reflexivity.
  split; [exact Hexc|]. split; [exact Hr|].
  destruct (uncaught_error_ends_retries
              ValueError Sample.config running 0 [] [] (Ok tt)
              Sample.after_stopping Hexc Hr)
    as (_ & _ & Hnone).
  exact Hnone.
Defined.

(** X26: a connection lost while Home Assistant is not stopping is
    retried at once, not after the reconnect interval: in any world that
    the handler reaches, [reconnect] forgets the protocol and hands
    [connect] to the job queue; no callback is left waiting, the clock
    has not moved, and that job is the only [connect] job. *)
Theorem reconnect_after_loss_is_immediate
    (config : Config) (s0 : CoreState) (t0 : Z)
    (before : list EventLoop.event) (exc : option exn) :
  EventLoop.connection (EventLoop.exec before (EventLoop.boot config s0 t0))
  <> None ->
  EventLoop.hass_state (EventLoop.exec before (EventLoop.boot config s0 t0))
  <> stopping ->
  let w := EventLoop.exec before (EventLoop.boot config s0 t0) in
  let w' := EventLoop.step (EventLoop.ConnectionLost exc) w in
  EventLoop.ready w' = EventLoop.ready w ++ [ProtocolPlatform.job_connect]
  /\ List.filter EventLoop.is_connect (EventLoop.ready w')
     = [ProtocolPlatform.job_connect]
  /\ EventLoop.timers w' = []
  /\ EventLoop.now w' = EventLoop.now w
  /\ EventLoop.connection w' = None
  /\ ProtocolPlatform.is_connected (EventLoop.handler w') = false.
Proof.
  intros Hopen Hrun. cbv zeta.
  set (w := EventLoop.exec before (EventLoop.boot config s0 t0)) in *.
  pose proof (LoopInvariants.pending_reachable config s0 t0 before) as Hp.
  fold w in Hp.
  destruct (EventLoop.connection w) as [t|] eqn:Hc; [|congruence].
  assert (CoreState_eqb (EventLoop.hass_state w) stopping = false) as Hs.
  { destruct (CoreState_eqb (EventLoop.hass_state w) stopping) eqn:E;
      [|reflexivity].
    apply LoopFacts.CoreState_eqb_eq in E. contradiction. }
  pose proof (LoopFacts.connection_lost exc t w Hc) as H.
  rewrite Hs in H.
  apply LoopInvariants.schedule_fields in H
    as (_ & Hn' & Hr' & Ht' & Hc' & _).
  unfold EventLoop.pending in Hp. rewrite Hc in Hp.
  assert (EventLoop.timers w = []) as Ht0
    by (destruct (EventLoop.timers w); [reflexivity|cbn in Hp; lia]).
  assert (List.filter EventLoop.is_connect (EventLoop.ready w) = []) as Hj0
    by (destruct (List.filter EventLoop.is_connect (EventLoop.ready w));
        [reflexivity|cbn in Hp; lia]).
  split; [exact Hr'|].
  split; [rewrite Hr', List.filter_app, Hj0; reflexivity|].
  split; [rewrite Ht'; exact Ht0|].
  split; [exact Hn'|]. split; [exact Hc'|].
  cbn [EventLoop.step]. rewrite Hc, LoopConfig.enact_handler.
  rewrite LoopFacts.reconnect_runs. reflexivity.
Qed.

Lemma reconnect_after_loss_is_immediate_witness :
  EventLoop.connection
    (EventLoop.exec Sample.until_connected
       (EventLoop.boot Sample.config running 0)) <> None
  /\ EventLoop.hass_state
       (EventLoop.exec Sample.until_connected
          (EventLoop.boot Sample.config running 0)) <> stopping
  /\ EventLoop.timers
       (EventLoop.step (EventLoop.ConnectionLost None)
          (EventLoop.exec Sample.until_connected
             (EventLoop.boot Sample.config running 0))) = [].
Proof.
  assert (EventLoop.connection
            (EventLoop.exec Sample.until_connected
               (EventLoop.boot Sample.config running 0)) <> None) as Hopen
    by (vm_compute; discriminate).
  assert (EventLoop.hass_state
            (EventLoop.exec Sample.until_connected
               (EventLoop.boot Sample.config running 0)) <> stopping)
    as Hrun by (vm_compute; discriminate).
  split; [exact Hopen|]. split; [exact Hrun|].
  destruct (reconnect_after_loss_is_immediate
              Sample.config running 0 Sample.until_connected None
              Hopen Hrun)
    as (_ & _ & Ht & _).
  exact Ht.
Defined.

(** X27: a [reconnect] callback that fires while Home Assistant is
    stopping attempts nothing: the callback is not cancelled, it runs and
    schedules nothing, and in any world that the handler reaches nothing
    is left pending, so no connection is attempted afterwards. *)
Theorem timer_while_stopping_ends_retries
    (config : Config) (s0 : CoreState) (t0 : Z)
    (before : list EventLoop.event) (i : nat)
    (t : Z * ProtocolPlatform.callback) (after : list EventLoop.event) :
  EventLoop.timers (EventLoop.exec before (EventLoop.boot config s0 t0))
    !! i = Some t ->
  EventLoop.hass_state (EventLoop.exec before (EventLoop.boot config s0 t0))
  = stopping ->
  EventLoop.attempts
    (EventLoop.exec after
       (EventLoop.step (EventLoop.FireTimer i)
          (EventLoop.exec before (EventLoop.boot config s0 t0))))
  = EventLoop.attempts (EventLoop.exec before (EventLoop.boot config s0 t0)).
Proof.
  intros Hi Hstop.
  destruct (LoopMore.timer_while_stopping
              i t _ (LoopInvariants.pending_reachable config s0 t0 before)
              Hi Hstop) as [Hzero Hsame].
  rewrite LoopInvariants.quiescent by exact Hzero. exact Hsame.
Qed.

Lemma timer_while_stopping_ends_retries_witness :
  EventLoop.timers
    (EventLoop.exec Sample.until_timer_while_stopping
       (EventLoop.boot Sample.config running 0)) !! 0%nat
  = Some (10, ProtocolPlatform.call_reconnect OSError)
  /\ EventLoop.hass_state
       (EventLoop.exec Sample.until_timer_while_stopping
          (EventLoop.boot Sample.config running 0)) = stopping
  /\ EventLoop.attempts
       (EventLoop.exec Sample.after_stopping
          (EventLoop.step (EventLoop.FireTimer 0)
             (EventLoop.exec Sample.until_timer_while_stopping
                (EventLoop.boot Sample.config running 0))))
     = [0].
Proof.
  assert (EventLoop.timers
            (EventLoop.exec Sample.until_timer_while_stopping
               (EventLoop.boot Sample.config running 0)) !! 0%nat
          = Some (10, ProtocolPlatform.call_reconnect OSError)) as Hi
    by reflexivity.
  assert (EventLoop.hass_state
            (EventLoop.exec Sample.until_timer_while_stopping
               (EventLoop.boot Sample.config running 0)) = stopping)
    as Hstop by reflexivity.
  split; [exact Hi|]. split; [exact Hstop|].
  rewrite (timer_while_stopping_ends_retries
             Sample.config running 0 Sample.until_timer_while_stopping
             0 _ Sample.after_stopping Hi Hstop).
  reflexivity.
Defined.

(** X28: a successful [connect] is followed by a query of the whole
    state: [connect] stores the protocol, returns [True] and hands
    [async_update] to the job queue, and [async_update], run on the
    handler that [connect] leaves, makes exactly one [get_value] call, on
    the main key of that protocol. *)
Theorem connect_then_update_queries_main
    (t : ProtocolPlatform.Transport) (p : ProtocolPlatform.Protocol)
    (self : ProtocolPlatform.NADDevice) (answer : result unit) :
  outcome (ProtocolPlatform.connect (ProtocolPlatform.established t p) self)
  = Ok (PyBool true)
  /\ In (ProtocolPlatform.AsyncAddJob ProtocolPlatform.job_async_update)
        (effects (ProtocolPlatform.connect
                    (ProtocolPlatform.established t p) self))
  /\ ProtocolPlatform.async_update answer
       (final (ProtocolPlatform.connect
                 (ProtocolPlatform.established t p) self))
     = (answer,
        final (ProtocolPlatform.connect
                 (ProtocolPlatform.established t p) self),
        [ProtocolPlatform.Call
           (ProtocolPlatform.get_value (ProtocolPlatform.MSG_MAIN p))])
  /\ ProtocolPlatform.device_state
       (final (ProtocolPlatform.connect
                 (ProtocolPlatform.established t p) self))
     = ProtocolPlatform.device_state self.
Proof.
  rewrite LoopFacts.connect_established.
  unfold outcome, effects, final. cbn [fst snd].
  split; [reflexivity|]. split; [cbn; auto|]. split; reflexivity.
Qed.
